(** * air2neo: the Airtable to Neo4j ingest job

    A shallow embedding of [src/air2neo/main.py] and [src/air2neo/config.py].

    Python values are a small inductive type, dictionaries are association
    lists in insertion order (Python dictionaries keep it, and the order of the
    edge list depends on it), a pandas row is a finite map from labels to
    cells and a frame is the list of its rows.  Code that can raise returns a
    [result]; the job itself runs in a writer-over-exception monad that logs
    every operation it sends to the graph store.  The store client
    (neo4j_functions.py) is not part of the sources: the job is proved
    against the log, and the store itself is modelled from the
    specification in [Neo4j].

    A Rocq string holds the UTF-8 bytes of a Python string.  The case
    and alphanumeric tests and the length of a string decode the bytes
    and work on code points, with the tables of Unicode 14.0.0; prefix
    tests and splitting work on the bytes, which gives the same answers;
    a loop over a string walks its bytes, which are its characters when
    the string is ASCII. *)

From Stdlib Require Import ZArith List Ascii String Bool Lia Permutation.
From stdpp Require Import base tactics option list countable strings gmap sets fin_sets.

Open Scope string_scope.
Open Scope list_scope.

Set Warnings "-clear-no-such-hyp".

(** ** Python values *)

Module Py.

(** Exceptions the modelled code can raise. *)
Inductive exn : Type :=
| KeyError (key : string)
| AttributeError (attr : string)
| TypeError (what : string)
| IndexError (what : string).

Inductive result (A : Type) : Type :=
| Ok (a : A)
| Raise (e : exn).
Arguments Ok {A} a.
Arguments Raise {A} e.

Definition rbind {A B} (m : result A) (f : A -> result B) : result B :=
  match m with
  | Ok a => f a
  | Raise e => Raise e
  end.

(** The values a cell of an Airtable record can hold once decoded from
    JSON (numbers are integers here), plus [None] and the float [nan]
    that pandas puts in a cell a record does not have. *)
#[local] Unset Elimination Schemes.
Inductive pyval : Type :=
| PNone
| PBool (b : bool)
| PInt (z : Z)
| PStr (s : string)
| PList (l : list pyval)
| PDict (d : list (pyval * pyval))
| PNaN.
#[local] Set Elimination Schemes.

(** A dictionary: its items in insertion order. *)
Definition dict : Type := list (pyval * pyval).

Section pyval_induction.
Variable P : pyval -> Prop.
Hypothesis HNone : P PNone.
Hypothesis HBool : forall b, P (PBool b).
Hypothesis HInt : forall z, P (PInt z).
Hypothesis HStr : forall s, P (PStr s).
Hypothesis HList : forall l, Forall P l -> P (PList l).
Hypothesis HDict :
  forall d, Forall (fun kv => P (fst kv) /\ P (snd kv)) d -> P (PDict d).
Hypothesis HNaN : P PNaN.

Fixpoint pyval_nested_ind (v : pyval) : P v :=
  match v with
  | PNone => HNone
  | PBool b => HBool b
  | PInt z => HInt z
  | PStr s => HStr s
  | PList l =>
      HList l
        ((fix go (l : list pyval) : Forall P l :=
            match l with
            | [] => @List.Forall_nil _ P
            | x :: l' => @List.Forall_cons _ P x l' (pyval_nested_ind x) (go l')
            end) l)
  | PDict d =>
      HDict d
        ((fix go (d : dict) : Forall (fun kv => P (fst kv) /\ P (snd kv)) d :=
            match d with
            | [] => @List.Forall_nil _ _
            | (k, x) :: d' =>
                @List.Forall_cons _ _ (k, x) d'
                  (conj (pyval_nested_ind k) (pyval_nested_ind x)) (go d')
            end) d)
  | PNaN => HNaN
  end.
End pyval_induction.

(** Values are countable: they are coded as trees over their leaves. *)
Definition leaf : Type := (bool + bool + Z + string)%type.

Fixpoint to_tree (v : pyval) : gen_tree leaf :=
  match v with
  | PNone => GenLeaf (inl (inl (inl false)))
  | PNaN => GenLeaf (inl (inl (inl true)))
  | PBool b => GenLeaf (inl (inl (inr b)))
  | PInt z => GenLeaf (inl (inr z))
  | PStr s => GenLeaf (inr s)
  | PList l => GenNode 0 (List.map to_tree l)
  | PDict d =>
      GenNode 1
        (List.map (fun kv => match kv with
                             | (k, x) => GenNode 2 [to_tree k; to_tree x]
                             end) d)
  end.

Fixpoint of_tree (t : gen_tree leaf) : pyval :=
  match t with
  | GenLeaf (inl (inl (inl false))) => PNone
  | GenLeaf (inl (inl (inl true))) => PNaN
  | GenLeaf (inl (inl (inr b))) => PBool b
  | GenLeaf (inl (inr z)) => PInt z
  | GenLeaf (inr s) => PStr s
  | GenNode 0 ts => PList (List.map of_tree ts)
  | GenNode _ ts =>
      PDict
        (List.map (fun t => match t with
                            | GenNode _ [a; b] => (of_tree a, of_tree b)
                            | _ => (PNone, PNone)
                            end) ts)
  end.

Lemma of_to_tree (v : pyval) : of_tree (to_tree v) = v.
Proof.
  induction v using pyval_nested_ind; simpl; try reflexivity.
  - f_equal. induction H as [|x l Hx Hl IH]; simpl; [reflexivity|].
    now rewrite Hx, IH.
  - f_equal. induction H as [|[k x] d [Hk Hx] Hd IH]; simpl; [reflexivity|].
    simpl in Hk, Hx. now rewrite Hk, Hx, IH.
Qed.

#[global] Instance pyval_eq_dec : EqDecision pyval.
Proof.
  intros x y. destruct (decide (to_tree x = to_tree y)) as [E|N].
  - left. rewrite <- (of_to_tree x), <- (of_to_tree y). now rewrite E.
  - right. intros ->. now apply N.
Defined.

#[global] Instance pyval_countable : Countable pyval :=
  inj_countable' to_tree of_tree of_to_tree.

(** *** Truth value, iteration *)

(** [bool(v)]: [None], [False], zero and empty containers are false;
    [nan] is true. *)
Definition truthy (v : pyval) : bool :=
  match v with
  | PNone => false
  | PBool b => b
  | PInt z => negb (Z.eqb z 0)
  | PStr s => negb (String.eqb s "")
  | PList l => match l with [] => false | _ => true end
  | PDict d => match d with [] => false | _ => true end
  | PNaN => true
  end.

(** The characters of a string, each as a one-character string: what a
    [for] loop over a [str] yields. *)
Fixpoint chars (s : string) : list pyval :=
  match s with
  | EmptyString => []
  | String c s' => PStr (String c EmptyString) :: chars s'
  end.

(** [iter(v)]: what [for x in v] loops over; a value that is not iterable
    raises [TypeError]. *)
Definition iter (v : pyval) : result (list pyval) :=
  match v with
  | PList l => Ok l
  | PStr s => Ok (chars s)
  | PDict d => Ok (List.map fst d)
  | PNone | PBool _ | PInt _ | PNaN =>
      Raise (TypeError "object is not iterable")
  end.

(** *** Dictionaries *)

(** [d.get(k)] as an option. *)
Fixpoint dict_get (d : dict) (k : pyval) : option pyval :=
  match d with
  | [] => None
  | (k', v) :: d' => if decide (k' = k) then Some v else dict_get d' k
  end.

(** [d[k] = v]: an existing key keeps its place and takes the new value, a
    new key goes to the end. *)
Fixpoint dict_set (d : dict) (k v : pyval) : dict :=
  match d with
  | [] => [(k, v)]
  | (k', v') :: d' =>
      if decide (k' = k) then (k', v) :: d' else (k', v') :: dict_set d' k v
  end.

(** A dictionary display or comprehension: the pairs are stored one after
    the other into a fresh dictionary. *)
Definition dict_of_pairs (kvs : list (pyval * pyval)) : dict :=
  fold_left (fun d kv => dict_set d (fst kv) (snd kv)) kvs [].

Definition keys (d : dict) : list pyval := List.map fst d.

(** [v.items()]: only a dictionary has the method. *)
Definition items (v : pyval) : result dict :=
  match v with
  | PDict d => Ok d
  | _ => Raise (AttributeError "items")
  end.

(** [v[k] = x] on a value: defined on dictionaries. *)
Definition setitem (v k x : pyval) : result pyval :=
  match v with
  | PDict d => Ok (PDict (dict_set d k x))
  | _ => Raise (TypeError "object does not support item assignment")
  end.

(** *** String methods *)

(** [s.startswith(pre)]. *)
Fixpoint startswith (pre s : string) : bool :=
  match pre, s with
  | EmptyString, _ => true
  | String p pre', String c s' => Ascii.eqb p c && startswith pre' s'
  | String _ _, EmptyString => false
  end.

(** *** Unicode

    A Rocq string holds the UTF-8 bytes of the Python string it stands
    for.  The tests that depend on the kind of a character decode the
    bytes and look the code points up in the tables below, which are
    those of Unicode 14.0.0 as CPython 3.11 carries them, written as
    inclusive ranges. *)

(** Code points with the flag [Py_UNICODE_ISLOWER] (the derived
    property Lowercase). *)
Definition lowercase_ranges : list (N * N) :=
  [(97, 122); (170, 170); (181, 181); (186, 186); (223, 246); (248, 255);
   (257, 257); (259, 259); (261, 261); (263, 263); (265, 265); (267, 267);
   (269, 269); (271, 271); (273, 273); (275, 275); (277, 277); (279, 279);
   (281, 281); (283, 283); (285, 285); (287, 287); (289, 289); (291, 291);
   (293, 293); (295, 295); (297, 297); (299, 299); (301, 301); (303, 303);
   (305, 305); (307, 307); (309, 309); (311, 312); (314, 314); (316, 316);
   (318, 318); (320, 320); (322, 322); (324, 324); (326, 326); (328, 329);
   (331, 331); (333, 333); (335, 335); (337, 337); (339, 339); (341, 341);
   (343, 343); (345, 345); (347, 347); (349, 349); (351, 351); (353, 353);
   (355, 355); (357, 357); (359, 359); (361, 361); (363, 363); (365, 365);
   (367, 367); (369, 369); (371, 371); (373, 373); (375, 375); (378, 378);
   (380, 380); (382, 384); (387, 387); (389, 389); (392, 392); (396, 397);
   (402, 402); (405, 405); (409, 411); (414, 414); (417, 417); (419, 419);
   (421, 421); (424, 424); (426, 427); (429, 429); (432, 432); (436, 436);
   (438, 438); (441, 442); (445, 447); (454, 454); (457, 457); (460, 460);
   (462, 462); (464, 464); (466, 466); (468, 468); (470, 470); (472, 472);
   (474, 474); (476, 477); (479, 479); (481, 481); (483, 483); (485, 485);
   (487, 487); (489, 489); (491, 491); (493, 493); (495, 496); (499, 499);
   (501, 501); (505, 505); (507, 507); (509, 509); (511, 511); (513, 513);
   (515, 515); (517, 517); (519, 519); (521, 521); (523, 523); (525, 525);
   (527, 527); (529, 529); (531, 531); (533, 533); (535, 535); (537, 537);
   (539, 539); (541, 541); (543, 543); (545, 545); (547, 547); (549, 549);
   (551, 551); (553, 553); (555, 555); (557, 557); (559, 559); (561, 561);
   (563, 569); (572, 572); (575, 576); (578, 578); (583, 583); (585, 585);
   (587, 587); (589, 589); (591, 659); (661, 696); (704, 705); (736, 740);
   (837, 837); (881, 881); (883, 883); (887, 887); (890, 893); (912, 912);
   (940, 974); (976, 977); (981, 983); (985, 985); (987, 987); (989, 989);
   (991, 991); (993, 993); (995, 995); (997, 997); (999, 999);
   (1001, 1001); (1003, 1003); (1005, 1005); (1007, 1011); (1013, 1013);
   (1016, 1016); (1019, 1020); (1072, 1119); (1121, 1121); (1123, 1123);
   (1125, 1125); (1127, 1127); (1129, 1129); (1131, 1131); (1133, 1133);
   (1135, 1135); (1137, 1137); (1139, 1139); (1141, 1141); (1143, 1143);
   (1145, 1145); (1147, 1147); (1149, 1149); (1151, 1151); (1153, 1153);
   (1163, 1163); (1165, 1165); (1167, 1167); (1169, 1169); (1171, 1171);
   (1173, 1173); (1175, 1175); (1177, 1177); (1179, 1179); (1181, 1181);
   (1183, 1183); (1185, 1185); (1187, 1187); (1189, 1189); (1191, 1191);
   (1193, 1193); (1195, 1195); (1197, 1197); (1199, 1199); (1201, 1201);
   (1203, 1203); (1205, 1205); (1207, 1207); (1209, 1209); (1211, 1211);
   (1213, 1213); (1215, 1215); (1218, 1218); (1220, 1220); (1222, 1222);
   (1224, 1224); (1226, 1226); (1228, 1228); (1230, 1231); (1233, 1233);
   (1235, 1235); (1237, 1237); (1239, 1239); (1241, 1241); (1243, 1243);
   (1245, 1245); (1247, 1247); (1249, 1249); (1251, 1251); (1253, 1253);
   (1255, 1255); (1257, 1257); (1259, 1259); (1261, 1261); (1263, 1263);
   (1265, 1265); (1267, 1267); (1269, 1269); (1271, 1271); (1273, 1273);
   (1275, 1275); (1277, 1277); (1279, 1279); (1281, 1281); (1283, 1283);
   (1285, 1285); (1287, 1287); (1289, 1289); (1291, 1291); (1293, 1293);
   (1295, 1295); (1297, 1297); (1299, 1299); (1301, 1301); (1303, 1303);
   (1305, 1305); (1307, 1307); (1309, 1309); (1311, 1311); (1313, 1313);
   (1315, 1315); (1317, 1317); (1319, 1319); (1321, 1321); (1323, 1323);
   (1325, 1325); (1327, 1327); (1376, 1416); (4304, 4346); (4349, 4351);
   (5112, 5117); (7296, 7304); (7424, 7615); (7681, 7681); (7683, 7683);
   (7685, 7685); (7687, 7687); (7689, 7689); (7691, 7691); (7693, 7693);
   (7695, 7695); (7697, 7697); (7699, 7699); (7701, 7701); (7703, 7703);
   (7705, 7705); (7707, 7707); (7709, 7709); (7711, 7711); (7713, 7713);
   (7715, 7715); (7717, 7717); (7719, 7719); (7721, 7721); (7723, 7723);
   (7725, 7725); (7727, 7727); (7729, 7729); (7731, 7731); (7733, 7733);
   (7735, 7735); (7737, 7737); (7739, 7739); (7741, 7741); (7743, 7743);
   (7745, 7745); (7747, 7747); (7749, 7749); (7751, 7751); (7753, 7753);
   (7755, 7755); (7757, 7757); (7759, 7759); (7761, 7761); (7763, 7763);
   (7765, 7765); (7767, 7767); (7769, 7769); (7771, 7771); (7773, 7773);
   (7775, 7775); (7777, 7777); (7779, 7779); (7781, 7781); (7783, 7783);
   (7785, 7785); (7787, 7787); (7789, 7789); (7791, 7791); (7793, 7793);
   (7795, 7795); (7797, 7797); (7799, 7799); (7801, 7801); (7803, 7803);
   (7805, 7805); (7807, 7807); (7809, 7809); (7811, 7811); (7813, 7813);
   (7815, 7815); (7817, 7817); (7819, 7819); (7821, 7821); (7823, 7823);
   (7825, 7825); (7827, 7827); (7829, 7837); (7839, 7839); (7841, 7841);
   (7843, 7843); (7845, 7845); (7847, 7847); (7849, 7849); (7851, 7851);
   (7853, 7853); (7855, 7855); (7857, 7857); (7859, 7859); (7861, 7861);
   (7863, 7863); (7865, 7865); (7867, 7867); (7869, 7869); (7871, 7871);
   (7873, 7873); (7875, 7875); (7877, 7877); (7879, 7879); (7881, 7881);
   (7883, 7883); (7885, 7885); (7887, 7887); (7889, 7889); (7891, 7891);
   (7893, 7893); (7895, 7895); (7897, 7897); (7899, 7899); (7901, 7901);
   (7903, 7903); (7905, 7905); (7907, 7907); (7909, 7909); (7911, 7911);
   (7913, 7913); (7915, 7915); (7917, 7917); (7919, 7919); (7921, 7921);
   (7923, 7923); (7925, 7925); (7927, 7927); (7929, 7929); (7931, 7931);
   (7933, 7933); (7935, 7943); (7952, 7957); (7968, 7975); (7984, 7991);
   (8000, 8005); (8016, 8023); (8032, 8039); (8048, 8061); (8064, 8071);
   (8080, 8087); (8096, 8103); (8112, 8116); (8118, 8119); (8126, 8126);
   (8130, 8132); (8134, 8135); (8144, 8147); (8150, 8151); (8160, 8167);
   (8178, 8180); (8182, 8183); (8305, 8305); (8319, 8319); (8336, 8348);
   (8458, 8458); (8462, 8463); (8467, 8467); (8495, 8495); (8500, 8500);
   (8505, 8505); (8508, 8509); (8518, 8521); (8526, 8526); (8560, 8575);
   (8580, 8580); (9424, 9449); (11312, 11359); (11361, 11361);
   (11365, 11366); (11368, 11368); (11370, 11370); (11372, 11372);
   (11377, 11377); (11379, 11380); (11382, 11389); (11393, 11393);
   (11395, 11395); (11397, 11397); (11399, 11399); (11401, 11401);
   (11403, 11403); (11405, 11405); (11407, 11407); (11409, 11409);
   (11411, 11411); (11413, 11413); (11415, 11415); (11417, 11417);
   (11419, 11419); (11421, 11421); (11423, 11423); (11425, 11425);
   (11427, 11427); (11429, 11429); (11431, 11431); (11433, 11433);
   (11435, 11435); (11437, 11437); (11439, 11439); (11441, 11441);
   (11443, 11443); (11445, 11445); (11447, 11447); (11449, 11449);
   (11451, 11451); (11453, 11453); (11455, 11455); (11457, 11457);
   (11459, 11459); (11461, 11461); (11463, 11463); (11465, 11465);
   (11467, 11467); (11469, 11469); (11471, 11471); (11473, 11473);
   (11475, 11475); (11477, 11477); (11479, 11479); (11481, 11481);
   (11483, 11483); (11485, 11485); (11487, 11487); (11489, 11489);
   (11491, 11492); (11500, 11500); (11502, 11502); (11507, 11507);
   (11520, 11557); (11559, 11559); (11565, 11565); (42561, 42561);
   (42563, 42563); (42565, 42565); (42567, 42567); (42569, 42569);
   (42571, 42571); (42573, 42573); (42575, 42575); (42577, 42577);
   (42579, 42579); (42581, 42581); (42583, 42583); (42585, 42585);
   (42587, 42587); (42589, 42589); (42591, 42591); (42593, 42593);
   (42595, 42595); (42597, 42597); (42599, 42599); (42601, 42601);
   (42603, 42603); (42605, 42605); (42625, 42625); (42627, 42627);
   (42629, 42629); (42631, 42631); (42633, 42633); (42635, 42635);
   (42637, 42637); (42639, 42639); (42641, 42641); (42643, 42643);
   (42645, 42645); (42647, 42647); (42649, 42649); (42651, 42653);
   (42787, 42787); (42789, 42789); (42791, 42791); (42793, 42793);
   (42795, 42795); (42797, 42797); (42799, 42801); (42803, 42803);
   (42805, 42805); (42807, 42807); (42809, 42809); (42811, 42811);
   (42813, 42813); (42815, 42815); (42817, 42817); (42819, 42819);
   (42821, 42821); (42823, 42823); (42825, 42825); (42827, 42827);
   (42829, 42829); (42831, 42831); (42833, 42833); (42835, 42835);
   (42837, 42837); (42839, 42839); (42841, 42841); (42843, 42843);
   (42845, 42845); (42847, 42847); (42849, 42849); (42851, 42851);
   (42853, 42853); (42855, 42855); (42857, 42857); (42859, 42859);
   (42861, 42861); (42863, 42872); (42874, 42874); (42876, 42876);
   (42879, 42879); (42881, 42881); (42883, 42883); (42885, 42885);
   (42887, 42887); (42892, 42892); (42894, 42894); (42897, 42897);
   (42899, 42901); (42903, 42903); (42905, 42905); (42907, 42907);
   (42909, 42909); (42911, 42911); (42913, 42913); (42915, 42915);
   (42917, 42917); (42919, 42919); (42921, 42921); (42927, 42927);
   (42933, 42933); (42935, 42935); (42937, 42937); (42939, 42939);
   (42941, 42941); (42943, 42943); (42945, 42945); (42947, 42947);
   (42952, 42952); (42954, 42954); (42961, 42961); (42963, 42963);
   (42965, 42965); (42967, 42967); (42969, 42969); (42998, 42998);
   (43000, 43002); (43824, 43866); (43868, 43880); (43888, 43967);
   (64256, 64262); (64275, 64279); (65345, 65370); (66600, 66639);
   (66776, 66811); (66967, 66977); (66979, 66993); (66995, 67001);
   (67003, 67004); (67456, 67456); (67459, 67461); (67463, 67504);
   (67506, 67514); (68800, 68850); (71872, 71903); (93792, 93823);
   (119834, 119859); (119886, 119892); (119894, 119911); (119938, 119963);
   (119990, 119993); (119995, 119995); (119997, 120003); (120005, 120015);
   (120042, 120067); (120094, 120119); (120146, 120171); (120198, 120223);
   (120250, 120275); (120302, 120327); (120354, 120379); (120406, 120431);
   (120458, 120485); (120514, 120538); (120540, 120545); (120572, 120596);
   (120598, 120603); (120630, 120654); (120656, 120661); (120688, 120712);
   (120714, 120719); (120746, 120770); (120772, 120777); (120779, 120779);
   (122624, 122633); (122635, 122654); (125218, 125251)]%N.

(** Code points with the flag [Py_UNICODE_ISUPPER] (the derived
    property Uppercase). *)
Definition uppercase_ranges : list (N * N) :=
  [(65, 90); (192, 214); (216, 222); (256, 256); (258, 258); (260, 260);
   (262, 262); (264, 264); (266, 266); (268, 268); (270, 270); (272, 272);
   (274, 274); (276, 276); (278, 278); (280, 280); (282, 282); (284, 284);
   (286, 286); (288, 288); (290, 290); (292, 292); (294, 294); (296, 296);
   (298, 298); (300, 300); (302, 302); (304, 304); (306, 306); (308, 308);
   (310, 310); (313, 313); (315, 315); (317, 317); (319, 319); (321, 321);
   (323, 323); (325, 325); (327, 327); (330, 330); (332, 332); (334, 334);
   (336, 336); (338, 338); (340, 340); (342, 342); (344, 344); (346, 346);
   (348, 348); (350, 350); (352, 352); (354, 354); (356, 356); (358, 358);
   (360, 360); (362, 362); (364, 364); (366, 366); (368, 368); (370, 370);
   (372, 372); (374, 374); (376, 377); (379, 379); (381, 381); (385, 386);
   (388, 388); (390, 391); (393, 395); (398, 401); (403, 404); (406, 408);
   (412, 413); (415, 416); (418, 418); (420, 420); (422, 423); (425, 425);
   (428, 428); (430, 431); (433, 435); (437, 437); (439, 440); (444, 444);
   (452, 452); (455, 455); (458, 458); (461, 461); (463, 463); (465, 465);
   (467, 467); (469, 469); (471, 471); (473, 473); (475, 475); (478, 478);
   (480, 480); (482, 482); (484, 484); (486, 486); (488, 488); (490, 490);
   (492, 492); (494, 494); (497, 497); (500, 500); (502, 504); (506, 506);
   (508, 508); (510, 510); (512, 512); (514, 514); (516, 516); (518, 518);
   (520, 520); (522, 522); (524, 524); (526, 526); (528, 528); (530, 530);
   (532, 532); (534, 534); (536, 536); (538, 538); (540, 540); (542, 542);
   (544, 544); (546, 546); (548, 548); (550, 550); (552, 552); (554, 554);
   (556, 556); (558, 558); (560, 560); (562, 562); (570, 571); (573, 574);
   (577, 577); (579, 582); (584, 584); (586, 586); (588, 588); (590, 590);
   (880, 880); (882, 882); (886, 886); (895, 895); (902, 902); (904, 906);
   (908, 908); (910, 911); (913, 929); (931, 939); (975, 975); (978, 980);
   (984, 984); (986, 986); (988, 988); (990, 990); (992, 992); (994, 994);
   (996, 996); (998, 998); (1000, 1000); (1002, 1002); (1004, 1004);
   (1006, 1006); (1012, 1012); (1015, 1015); (1017, 1018); (1021, 1071);
   (1120, 1120); (1122, 1122); (1124, 1124); (1126, 1126); (1128, 1128);
   (1130, 1130); (1132, 1132); (1134, 1134); (1136, 1136); (1138, 1138);
   (1140, 1140); (1142, 1142); (1144, 1144); (1146, 1146); (1148, 1148);
   (1150, 1150); (1152, 1152); (1162, 1162); (1164, 1164); (1166, 1166);
   (1168, 1168); (1170, 1170); (1172, 1172); (1174, 1174); (1176, 1176);
   (1178, 1178); (1180, 1180); (1182, 1182); (1184, 1184); (1186, 1186);
   (1188, 1188); (1190, 1190); (1192, 1192); (1194, 1194); (1196, 1196);
   (1198, 1198); (1200, 1200); (1202, 1202); (1204, 1204); (1206, 1206);
   (1208, 1208); (1210, 1210); (1212, 1212); (1214, 1214); (1216, 1217);
   (1219, 1219); (1221, 1221); (1223, 1223); (1225, 1225); (1227, 1227);
   (1229, 1229); (1232, 1232); (1234, 1234); (1236, 1236); (1238, 1238);
   (1240, 1240); (1242, 1242); (1244, 1244); (1246, 1246); (1248, 1248);
   (1250, 1250); (1252, 1252); (1254, 1254); (1256, 1256); (1258, 1258);
   (1260, 1260); (1262, 1262); (1264, 1264); (1266, 1266); (1268, 1268);
   (1270, 1270); (1272, 1272); (1274, 1274); (1276, 1276); (1278, 1278);
   (1280, 1280); (1282, 1282); (1284, 1284); (1286, 1286); (1288, 1288);
   (1290, 1290); (1292, 1292); (1294, 1294); (1296, 1296); (1298, 1298);
   (1300, 1300); (1302, 1302); (1304, 1304); (1306, 1306); (1308, 1308);
   (1310, 1310); (1312, 1312); (1314, 1314); (1316, 1316); (1318, 1318);
   (1320, 1320); (1322, 1322); (1324, 1324); (1326, 1326); (1329, 1366);
   (4256, 4293); (4295, 4295); (4301, 4301); (5024, 5109); (7312, 7354);
   (7357, 7359); (7680, 7680); (7682, 7682); (7684, 7684); (7686, 7686);
   (7688, 7688); (7690, 7690); (7692, 7692); (7694, 7694); (7696, 7696);
   (7698, 7698); (7700, 7700); (7702, 7702); (7704, 7704); (7706, 7706);
   (7708, 7708); (7710, 7710); (7712, 7712); (7714, 7714); (7716, 7716);
   (7718, 7718); (7720, 7720); (7722, 7722); (7724, 7724); (7726, 7726);
   (7728, 7728); (7730, 7730); (7732, 7732); (7734, 7734); (7736, 7736);
   (7738, 7738); (7740, 7740); (7742, 7742); (7744, 7744); (7746, 7746);
   (7748, 7748); (7750, 7750); (7752, 7752); (7754, 7754); (7756, 7756);
   (7758, 7758); (7760, 7760); (7762, 7762); (7764, 7764); (7766, 7766);
   (7768, 7768); (7770, 7770); (7772, 7772); (7774, 7774); (7776, 7776);
   (7778, 7778); (7780, 7780); (7782, 7782); (7784, 7784); (7786, 7786);
   (7788, 7788); (7790, 7790); (7792, 7792); (7794, 7794); (7796, 7796);
   (7798, 7798); (7800, 7800); (7802, 7802); (7804, 7804); (7806, 7806);
   (7808, 7808); (7810, 7810); (7812, 7812); (7814, 7814); (7816, 7816);
   (7818, 7818); (7820, 7820); (7822, 7822); (7824, 7824); (7826, 7826);
   (7828, 7828); (7838, 7838); (7840, 7840); (7842, 7842); (7844, 7844);
   (7846, 7846); (7848, 7848); (7850, 7850); (7852, 7852); (7854, 7854);
   (7856, 7856); (7858, 7858); (7860, 7860); (7862, 7862); (7864, 7864);
   (7866, 7866); (7868, 7868); (7870, 7870); (7872, 7872); (7874, 7874);
   (7876, 7876); (7878, 7878); (7880, 7880); (7882, 7882); (7884, 7884);
   (7886, 7886); (7888, 7888); (7890, 7890); (7892, 7892); (7894, 7894);
   (7896, 7896); (7898, 7898); (7900, 7900); (7902, 7902); (7904, 7904);
   (7906, 7906); (7908, 7908); (7910, 7910); (7912, 7912); (7914, 7914);
   (7916, 7916); (7918, 7918); (7920, 7920); (7922, 7922); (7924, 7924);
   (7926, 7926); (7928, 7928); (7930, 7930); (7932, 7932); (7934, 7934);
   (7944, 7951); (7960, 7965); (7976, 7983); (7992, 7999); (8008, 8013);
   (8025, 8025); (8027, 8027); (8029, 8029); (8031, 8031); (8040, 8047);
   (8120, 8123); (8136, 8139); (8152, 8155); (8168, 8172); (8184, 8187);
   (8450, 8450); (8455, 8455); (8459, 8461); (8464, 8466); (8469, 8469);
   (8473, 8477); (8484, 8484); (8486, 8486); (8488, 8488); (8490, 8493);
   (8496, 8499); (8510, 8511); (8517, 8517); (8544, 8559); (8579, 8579);
   (9398, 9423); (11264, 11311); (11360, 11360); (11362, 11364);
   (11367, 11367); (11369, 11369); (11371, 11371); (11373, 11376);
   (11378, 11378); (11381, 11381); (11390, 11392); (11394, 11394);
   (11396, 11396); (11398, 11398); (11400, 11400); (11402, 11402);
   (11404, 11404); (11406, 11406); (11408, 11408); (11410, 11410);
   (11412, 11412); (11414, 11414); (11416, 11416); (11418, 11418);
   (11420, 11420); (11422, 11422); (11424, 11424); (11426, 11426);
   (11428, 11428); (11430, 11430); (11432, 11432); (11434, 11434);
   (11436, 11436); (11438, 11438); (11440, 11440); (11442, 11442);
   (11444, 11444); (11446, 11446); (11448, 11448); (11450, 11450);
   (11452, 11452); (11454, 11454); (11456, 11456); (11458, 11458);
   (11460, 11460); (11462, 11462); (11464, 11464); (11466, 11466);
   (11468, 11468); (11470, 11470); (11472, 11472); (11474, 11474);
   (11476, 11476); (11478, 11478); (11480, 11480); (11482, 11482);
   (11484, 11484); (11486, 11486); (11488, 11488); (11490, 11490);
   (11499, 11499); (11501, 11501); (11506, 11506); (42560, 42560);
   (42562, 42562); (42564, 42564); (42566, 42566); (42568, 42568);
   (42570, 42570); (42572, 42572); (42574, 42574); (42576, 42576);
   (42578, 42578); (42580, 42580); (42582, 42582); (42584, 42584);
   (42586, 42586); (42588, 42588); (42590, 42590); (42592, 42592);
   (42594, 42594); (42596, 42596); (42598, 42598); (42600, 42600);
   (42602, 42602); (42604, 42604); (42624, 42624); (42626, 42626);
   (42628, 42628); (42630, 42630); (42632, 42632); (42634, 42634);
   (42636, 42636); (42638, 42638); (42640, 42640); (42642, 42642);
   (42644, 42644); (42646, 42646); (42648, 42648); (42650, 42650);
   (42786, 42786); (42788, 42788); (42790, 42790); (42792, 42792);
   (42794, 42794); (42796, 42796); (42798, 42798); (42802, 42802);
   (42804, 42804); (42806, 42806); (42808, 42808); (42810, 42810);
   (42812, 42812); (42814, 42814); (42816, 42816); (42818, 42818);
   (42820, 42820); (42822, 42822); (42824, 42824); (42826, 42826);
   (42828, 42828); (42830, 42830); (42832, 42832); (42834, 42834);
   (42836, 42836); (42838, 42838); (42840, 42840); (42842, 42842);
   (42844, 42844); (42846, 42846); (42848, 42848); (42850, 42850);
   (42852, 42852); (42854, 42854); (42856, 42856); (42858, 42858);
   (42860, 42860); (42862, 42862); (42873, 42873); (42875, 42875);
   (42877, 42878); (42880, 42880); (42882, 42882); (42884, 42884);
   (42886, 42886); (42891, 42891); (42893, 42893); (42896, 42896);
   (42898, 42898); (42902, 42902); (42904, 42904); (42906, 42906);
   (42908, 42908); (42910, 42910); (42912, 42912); (42914, 42914);
   (42916, 42916); (42918, 42918); (42920, 42920); (42922, 42926);
   (42928, 42932); (42934, 42934); (42936, 42936); (42938, 42938);
   (42940, 42940); (42942, 42942); (42944, 42944); (42946, 42946);
   (42948, 42951); (42953, 42953); (42960, 42960); (42966, 42966);
   (42968, 42968); (42997, 42997); (65313, 65338); (66560, 66599);
   (66736, 66771); (66928, 66938); (66940, 66954); (66956, 66962);
   (66964, 66965); (68736, 68786); (71840, 71871); (93760, 93791);
   (119808, 119833); (119860, 119885); (119912, 119937); (119964, 119964);
   (119966, 119967); (119970, 119970); (119973, 119974); (119977, 119980);
   (119982, 119989); (120016, 120041); (120068, 120069); (120071, 120074);
   (120077, 120084); (120086, 120092); (120120, 120121); (120123, 120126);
   (120128, 120132); (120134, 120134); (120138, 120144); (120172, 120197);
   (120224, 120249); (120276, 120301); (120328, 120353); (120380, 120405);
   (120432, 120457); (120488, 120512); (120546, 120570); (120604, 120628);
   (120662, 120686); (120720, 120744); (120778, 120778); (125184, 125217);
   (127280, 127305); (127312, 127337); (127344, 127369)]%N.

(** Code points with the flag [Py_UNICODE_ISTITLE] (category Lt). *)
Definition titlecase_ranges : list (N * N) :=
  [(453, 453); (456, 456); (459, 459); (498, 498); (8072, 8079);
   (8088, 8095); (8104, 8111); (8124, 8124); (8140, 8140); (8188, 8188)]%N.

(** Code points that are alphabetic, decimal, digit or numeric
    ([Py_UNICODE_ISALNUM]). *)
Definition alnum_ranges : list (N * N) :=
  [(48, 57); (65, 90); (97, 122); (170, 170); (178, 179); (181, 181);
   (185, 186); (188, 190); (192, 214); (216, 246); (248, 705); (710, 721);
   (736, 740); (748, 748); (750, 750); (880, 884); (886, 887); (890, 893);
   (895, 895); (902, 902); (904, 906); (908, 908); (910, 929);
   (931, 1013); (1015, 1153); (1162, 1327); (1329, 1366); (1369, 1369);
   (1376, 1416); (1488, 1514); (1519, 1522); (1568, 1610); (1632, 1641);
   (1646, 1647); (1649, 1747); (1749, 1749); (1765, 1766); (1774, 1788);
   (1791, 1791); (1808, 1808); (1810, 1839); (1869, 1957); (1969, 1969);
   (1984, 2026); (2036, 2037); (2042, 2042); (2048, 2069); (2074, 2074);
   (2084, 2084); (2088, 2088); (2112, 2136); (2144, 2154); (2160, 2183);
   (2185, 2190); (2208, 2249); (2308, 2361); (2365, 2365); (2384, 2384);
   (2392, 2401); (2406, 2415); (2417, 2432); (2437, 2444); (2447, 2448);
   (2451, 2472); (2474, 2480); (2482, 2482); (2486, 2489); (2493, 2493);
   (2510, 2510); (2524, 2525); (2527, 2529); (2534, 2545); (2548, 2553);
   (2556, 2556); (2565, 2570); (2575, 2576); (2579, 2600); (2602, 2608);
   (2610, 2611); (2613, 2614); (2616, 2617); (2649, 2652); (2654, 2654);
   (2662, 2671); (2674, 2676); (2693, 2701); (2703, 2705); (2707, 2728);
   (2730, 2736); (2738, 2739); (2741, 2745); (2749, 2749); (2768, 2768);
   (2784, 2785); (2790, 2799); (2809, 2809); (2821, 2828); (2831, 2832);
   (2835, 2856); (2858, 2864); (2866, 2867); (2869, 2873); (2877, 2877);
   (2908, 2909); (2911, 2913); (2918, 2927); (2929, 2935); (2947, 2947);
   (2949, 2954); (2958, 2960); (2962, 2965); (2969, 2970); (2972, 2972);
   (2974, 2975); (2979, 2980); (2984, 2986); (2990, 3001); (3024, 3024);
   (3046, 3058); (3077, 3084); (3086, 3088); (3090, 3112); (3114, 3129);
   (3133, 3133); (3160, 3162); (3165, 3165); (3168, 3169); (3174, 3183);
   (3192, 3198); (3200, 3200); (3205, 3212); (3214, 3216); (3218, 3240);
   (3242, 3251); (3253, 3257); (3261, 3261); (3293, 3294); (3296, 3297);
   (3302, 3311); (3313, 3314); (3332, 3340); (3342, 3344); (3346, 3386);
   (3389, 3389); (3406, 3406); (3412, 3414); (3416, 3425); (3430, 3448);
   (3450, 3455); (3461, 3478); (3482, 3505); (3507, 3515); (3517, 3517);
   (3520, 3526); (3558, 3567); (3585, 3632); (3634, 3635); (3648, 3654);
   (3664, 3673); (3713, 3714); (3716, 3716); (3718, 3722); (3724, 3747);
   (3749, 3749); (3751, 3760); (3762, 3763); (3773, 3773); (3776, 3780);
   (3782, 3782); (3792, 3801); (3804, 3807); (3840, 3840); (3872, 3891);
   (3904, 3911); (3913, 3948); (3976, 3980); (4096, 4138); (4159, 4169);
   (4176, 4181); (4186, 4189); (4193, 4193); (4197, 4198); (4206, 4208);
   (4213, 4225); (4238, 4238); (4240, 4249); (4256, 4293); (4295, 4295);
   (4301, 4301); (4304, 4346); (4348, 4680); (4682, 4685); (4688, 4694);
   (4696, 4696); (4698, 4701); (4704, 4744); (4746, 4749); (4752, 4784);
   (4786, 4789); (4792, 4798); (4800, 4800); (4802, 4805); (4808, 4822);
   (4824, 4880); (4882, 4885); (4888, 4954); (4969, 4988); (4992, 5007);
   (5024, 5109); (5112, 5117); (5121, 5740); (5743, 5759); (5761, 5786);
   (5792, 5866); (5870, 5880); (5888, 5905); (5919, 5937); (5952, 5969);
   (5984, 5996); (5998, 6000); (6016, 6067); (6103, 6103); (6108, 6108);
   (6112, 6121); (6128, 6137); (6160, 6169); (6176, 6264); (6272, 6276);
   (6279, 6312); (6314, 6314); (6320, 6389); (6400, 6430); (6470, 6509);
   (6512, 6516); (6528, 6571); (6576, 6601); (6608, 6618); (6656, 6678);
   (6688, 6740); (6784, 6793); (6800, 6809); (6823, 6823); (6917, 6963);
   (6981, 6988); (6992, 7001); (7043, 7072); (7086, 7141); (7168, 7203);
   (7232, 7241); (7245, 7293); (7296, 7304); (7312, 7354); (7357, 7359);
   (7401, 7404); (7406, 7411); (7413, 7414); (7418, 7418); (7424, 7615);
   (7680, 7957); (7960, 7965); (7968, 8005); (8008, 8013); (8016, 8023);
   (8025, 8025); (8027, 8027); (8029, 8029); (8031, 8061); (8064, 8116);
   (8118, 8124); (8126, 8126); (8130, 8132); (8134, 8140); (8144, 8147);
   (8150, 8155); (8160, 8172); (8178, 8180); (8182, 8188); (8304, 8305);
   (8308, 8313); (8319, 8329); (8336, 8348); (8450, 8450); (8455, 8455);
   (8458, 8467); (8469, 8469); (8473, 8477); (8484, 8484); (8486, 8486);
   (8488, 8488); (8490, 8493); (8495, 8505); (8508, 8511); (8517, 8521);
   (8526, 8526); (8528, 8585); (9312, 9371); (9450, 9471); (10102, 10131);
   (11264, 11492); (11499, 11502); (11506, 11507); (11517, 11517);
   (11520, 11557); (11559, 11559); (11565, 11565); (11568, 11623);
   (11631, 11631); (11648, 11670); (11680, 11686); (11688, 11694);
   (11696, 11702); (11704, 11710); (11712, 11718); (11720, 11726);
   (11728, 11734); (11736, 11742); (11823, 11823); (12293, 12295);
   (12321, 12329); (12337, 12341); (12344, 12348); (12353, 12438);
   (12445, 12447); (12449, 12538); (12540, 12543); (12549, 12591);
   (12593, 12686); (12690, 12693); (12704, 12735); (12784, 12799);
   (12832, 12841); (12872, 12879); (12881, 12895); (12928, 12937);
   (12977, 12991); (13312, 19903); (19968, 42124); (42192, 42237);
   (42240, 42508); (42512, 42539); (42560, 42606); (42623, 42653);
   (42656, 42735); (42775, 42783); (42786, 42888); (42891, 42954);
   (42960, 42961); (42963, 42963); (42965, 42969); (42994, 43009);
   (43011, 43013); (43015, 43018); (43020, 43042); (43056, 43061);
   (43072, 43123); (43138, 43187); (43216, 43225); (43250, 43255);
   (43259, 43259); (43261, 43262); (43264, 43301); (43312, 43334);
   (43360, 43388); (43396, 43442); (43471, 43481); (43488, 43492);
   (43494, 43518); (43520, 43560); (43584, 43586); (43588, 43595);
   (43600, 43609); (43616, 43638); (43642, 43642); (43646, 43695);
   (43697, 43697); (43701, 43702); (43705, 43709); (43712, 43712);
   (43714, 43714); (43739, 43741); (43744, 43754); (43762, 43764);
   (43777, 43782); (43785, 43790); (43793, 43798); (43808, 43814);
   (43816, 43822); (43824, 43866); (43868, 43881); (43888, 44002);
   (44016, 44025); (44032, 55203); (55216, 55238); (55243, 55291);
   (63744, 64109); (64112, 64217); (64256, 64262); (64275, 64279);
   (64285, 64285); (64287, 64296); (64298, 64310); (64312, 64316);
   (64318, 64318); (64320, 64321); (64323, 64324); (64326, 64433);
   (64467, 64829); (64848, 64911); (64914, 64967); (65008, 65019);
   (65136, 65140); (65142, 65276); (65296, 65305); (65313, 65338);
   (65345, 65370); (65382, 65470); (65474, 65479); (65482, 65487);
   (65490, 65495); (65498, 65500); (65536, 65547); (65549, 65574);
   (65576, 65594); (65596, 65597); (65599, 65613); (65616, 65629);
   (65664, 65786); (65799, 65843); (65856, 65912); (65930, 65931);
   (66176, 66204); (66208, 66256); (66273, 66299); (66304, 66339);
   (66349, 66378); (66384, 66421); (66432, 66461); (66464, 66499);
   (66504, 66511); (66513, 66517); (66560, 66717); (66720, 66729);
   (66736, 66771); (66776, 66811); (66816, 66855); (66864, 66915);
   (66928, 66938); (66940, 66954); (66956, 66962); (66964, 66965);
   (66967, 66977); (66979, 66993); (66995, 67001); (67003, 67004);
   (67072, 67382); (67392, 67413); (67424, 67431); (67456, 67461);
   (67463, 67504); (67506, 67514); (67584, 67589); (67592, 67592);
   (67594, 67637); (67639, 67640); (67644, 67644); (67647, 67669);
   (67672, 67702); (67705, 67742); (67751, 67759); (67808, 67826);
   (67828, 67829); (67835, 67867); (67872, 67897); (67968, 68023);
   (68028, 68047); (68050, 68096); (68112, 68115); (68117, 68119);
   (68121, 68149); (68160, 68168); (68192, 68222); (68224, 68255);
   (68288, 68295); (68297, 68324); (68331, 68335); (68352, 68405);
   (68416, 68437); (68440, 68466); (68472, 68497); (68521, 68527);
   (68608, 68680); (68736, 68786); (68800, 68850); (68858, 68899);
   (68912, 68921); (69216, 69246); (69248, 69289); (69296, 69297);
   (69376, 69415); (69424, 69445); (69457, 69460); (69488, 69505);
   (69552, 69579); (69600, 69622); (69635, 69687); (69714, 69743);
   (69745, 69746); (69749, 69749); (69763, 69807); (69840, 69864);
   (69872, 69881); (69891, 69926); (69942, 69951); (69956, 69956);
   (69959, 69959); (69968, 70002); (70006, 70006); (70019, 70066);
   (70081, 70084); (70096, 70106); (70108, 70108); (70113, 70132);
   (70144, 70161); (70163, 70187); (70272, 70278); (70280, 70280);
   (70282, 70285); (70287, 70301); (70303, 70312); (70320, 70366);
   (70384, 70393); (70405, 70412); (70415, 70416); (70419, 70440);
   (70442, 70448); (70450, 70451); (70453, 70457); (70461, 70461);
   (70480, 70480); (70493, 70497); (70656, 70708); (70727, 70730);
   (70736, 70745); (70751, 70753); (70784, 70831); (70852, 70853);
   (70855, 70855); (70864, 70873); (71040, 71086); (71128, 71131);
   (71168, 71215); (71236, 71236); (71248, 71257); (71296, 71338);
   (71352, 71352); (71360, 71369); (71424, 71450); (71472, 71483);
   (71488, 71494); (71680, 71723); (71840, 71922); (71935, 71942);
   (71945, 71945); (71948, 71955); (71957, 71958); (71960, 71983);
   (71999, 71999); (72001, 72001); (72016, 72025); (72096, 72103);
   (72106, 72144); (72161, 72161); (72163, 72163); (72192, 72192);
   (72203, 72242); (72250, 72250); (72272, 72272); (72284, 72329);
   (72349, 72349); (72368, 72440); (72704, 72712); (72714, 72750);
   (72768, 72768); (72784, 72812); (72818, 72847); (72960, 72966);
   (72968, 72969); (72971, 73008); (73030, 73030); (73040, 73049);
   (73056, 73061); (73063, 73064); (73066, 73097); (73112, 73112);
   (73120, 73129); (73440, 73458); (73648, 73648); (73664, 73684);
   (73728, 74649); (74752, 74862); (74880, 75075); (77712, 77808);
   (77824, 78894); (82944, 83526); (92160, 92728); (92736, 92766);
   (92768, 92777); (92784, 92862); (92864, 92873); (92880, 92909);
   (92928, 92975); (92992, 92995); (93008, 93017); (93019, 93025);
   (93027, 93047); (93053, 93071); (93760, 93846); (93952, 94026);
   (94032, 94032); (94099, 94111); (94176, 94177); (94179, 94179);
   (94208, 100343); (100352, 101589); (101632, 101640); (110576, 110579);
   (110581, 110587); (110589, 110590); (110592, 110882); (110928, 110930);
   (110948, 110951); (110960, 111355); (113664, 113770); (113776, 113788);
   (113792, 113800); (113808, 113817); (119520, 119539); (119648, 119672);
   (119808, 119892); (119894, 119964); (119966, 119967); (119970, 119970);
   (119973, 119974); (119977, 119980); (119982, 119993); (119995, 119995);
   (119997, 120003); (120005, 120069); (120071, 120074); (120077, 120084);
   (120086, 120092); (120094, 120121); (120123, 120126); (120128, 120132);
   (120134, 120134); (120138, 120144); (120146, 120485); (120488, 120512);
   (120514, 120538); (120540, 120570); (120572, 120596); (120598, 120628);
   (120630, 120654); (120656, 120686); (120688, 120712); (120714, 120744);
   (120746, 120770); (120772, 120779); (120782, 120831); (122624, 122654);
   (123136, 123180); (123191, 123197); (123200, 123209); (123214, 123214);
   (123536, 123565); (123584, 123627); (123632, 123641); (124896, 124902);
   (124904, 124907); (124909, 124910); (124912, 124926); (124928, 125124);
   (125127, 125135); (125184, 125251); (125259, 125259); (125264, 125273);
   (126065, 126123); (126125, 126127); (126129, 126132); (126209, 126253);
   (126255, 126269); (126464, 126467); (126469, 126495); (126497, 126498);
   (126500, 126500); (126503, 126503); (126505, 126514); (126516, 126519);
   (126521, 126521); (126523, 126523); (126530, 126530); (126535, 126535);
   (126537, 126537); (126539, 126539); (126541, 126543); (126545, 126546);
   (126548, 126548); (126551, 126551); (126553, 126553); (126555, 126555);
   (126557, 126557); (126559, 126559); (126561, 126562); (126564, 126564);
   (126567, 126570); (126572, 126578); (126580, 126583); (126585, 126588);
   (126590, 126590); (126592, 126601); (126603, 126619); (126625, 126627);
   (126629, 126633); (126635, 126651); (127232, 127244); (130032, 130041);
   (131072, 173791); (173824, 177976); (177984, 178205); (178208, 183969);
   (183984, 191456); (194560, 195101); (196608, 201546)]%N.

Definition in_ranges (table : list (N * N)) (c : N) : bool :=
  existsb (fun r => (fst r <=? c)%N && (c <=? snd r)%N) table.

Definition is_lower (c : N) : bool := in_ranges lowercase_ranges c.
Definition is_upper (c : N) : bool := in_ranges uppercase_ranges c.
Definition is_title (c : N) : bool := in_ranges titlecase_ranges c.
Definition is_alnum (c : N) : bool := in_ranges alnum_ranges c.

(** A continuation byte of UTF-8, and its six bits. *)
Definition is_cont (b : ascii) : bool :=
  (128 <=? N_of_ascii b)%N && (N_of_ascii b <? 192)%N.

Definition cont_bits (b : ascii) : N := (N_of_ascii b - 128)%N.

(** The code points of a string.  A byte that does not start a
    well-formed sequence stands for no character of a Python string; it
    is read as U+FFFD. *)
Fixpoint decode (s : string) : list N :=
  match s with
  | EmptyString => []
  | String b s1 =>
      let n := N_of_ascii b in
      if (n <? 128)%N then n :: decode s1
      else if (192 <=? n)%N && (n <? 224)%N then
        match s1 with
        | String b1 s2 =>
            if is_cont b1
            then ((n - 192) * 64 + cont_bits b1)%N :: decode s2
            else 65533%N :: decode s1
        | EmptyString => [65533%N]
        end
      else if (224 <=? n)%N && (n <? 240)%N then
        match s1 with
        | String b1 (String b2 s3) =>
            if is_cont b1 && is_cont b2
            then ((n - 224) * 4096 + cont_bits b1 * 64 + cont_bits b2)%N
                 :: decode s3
            else 65533%N :: decode s1
        | _ => 65533%N :: decode s1
        end
      else if (240 <=? n)%N && (n <? 248)%N then
        match s1 with
        | String b1 (String b2 (String b3 s4)) =>
            if is_cont b1 && is_cont b2 && is_cont b3
            then ((n - 240) * 262144 + cont_bits b1 * 4096
                  + cont_bits b2 * 64 + cont_bits b3)%N
                 :: decode s4
            else 65533%N :: decode s1
        | _ => 65533%N :: decode s1
        end
      else 65533%N :: decode s1
  end.

(** [s.isupper()], as CPython's loop over the characters: a lowercase
    or titlecase character answers [False] at once, an uppercase one
    sets [cased], and the answer at the end of the string is [cased]. *)
Fixpoint isupper_from (cased : bool) (cs : list N) : bool :=
  match cs with
  | [] => cased
  | c :: cs' =>
      if is_lower c || is_title c then false
      else isupper_from (cased || is_upper c) cs'
  end.

Definition isupper (s : string) : bool := isupper_from false (decode s).

(** [s.split(sep)] for a non-empty [sep], scanning from the left: at a
    position where [sep] starts the current piece ends and the scan skips
    the separator; [skip] counts the separator characters still to pass.
    The result is the first piece and the list of the others. *)
Fixpoint split_from (sep : string) (skip : nat) (s : string)
  : string * list string :=
  match s with
  | EmptyString => (EmptyString, [])
  | String c s' =>
      match skip with
      | S n => split_from sep n s'
      | O =>
          if startswith sep s
          then (EmptyString,
                let '(p, ps) := split_from sep (String.length sep - 1) s' in
                p :: ps)
          else let '(p, ps) := split_from sep 0 s' in (String c p, ps)
      end
  end.

Definition split (sep s : string) : list string :=
  let '(p, ps) := split_from sep 0 s in p :: ps.

End Py.

Export Py.

#[global] Instance result_ret : MRet result := fun A a => Ok a.
#[global] Instance result_bind : MBind result := fun A B f m => rbind m f.

(** ** pandas: rows and frames *)

Module Pandas.

(** A row ([Series]): its cells by label. *)
Abbreviation Series := (gmap string pyval).

(** A frame: its rows in index order. *)
Abbreviation DataFrame := (list (gmap string pyval)).

(** [row[label]]. *)
Definition getitem (row : Series) (label : string) : result pyval :=
  match row !! label with
  | Some v => Ok v
  | None => Raise (KeyError label)
  end.

(** What [DataFrame.apply(f, axis=1)] hands back: a frame when [f] returns
    rows, a series of values otherwise. *)
Inductive applied : Type :=
| AFrame (df : DataFrame)
| ASeries (values : list pyval).

Fixpoint mapM {A B} (f : A -> result B) (l : list A) : result (list B) :=
  match l with
  | [] => Ok []
  | x :: l' => y ← f x; ys ← mapM f l'; Ok (y :: ys)
  end.

(** [df.apply(f, axis=1)] for an [f] that returns a row.  On a frame
    without rows pandas does not loop: it probes [f] once on an empty
    row, swallows whatever the probe raises, and returns a copy of the
    frame.  Otherwise [f] runs on every row in order and an exception
    leaves the call. *)
Definition apply_rows (f : Series -> result Series) (df : DataFrame)
  : result DataFrame :=
  match df with
  | [] => match f ∅ with
          | Ok _ | Raise _ => Ok []
          end
  | _ :: _ => mapM f df
  end.

(** [df.apply(f, axis=1)] for an [f] that returns a plain value.  On a
    frame without rows the probe on an empty row decides: when it
    raises, the exception is swallowed and the result is a copy of the
    frame; when it returns, the result is an empty series.  Otherwise the
    result is the series of the values [f] returns. *)
Definition apply_values (f : Series -> result pyval) (df : DataFrame)
  : result applied :=
  match df with
  | [] => match f ∅ with
          | Raise _ => Ok (AFrame [])
          | Ok _ => Ok (ASeries [])
          end
  | _ :: _ => vs ← mapM f df; Ok (ASeries vs)
  end.

(** [.to_list()]: a method of a series; a frame has none. *)
Definition to_list (a : applied) : result (list pyval) :=
  match a with
  | ASeries vs => Ok vs
  | AFrame _ => Raise (AttributeError "to_list")
  end.

(** [DataFrame(records)]: the columns of the frame are the keys that
    some record has, and a record without one of them gets [nan] in that
    cell. *)
Definition columns_of (records : list (gmap string pyval)) : gset string :=
  ⋃ (dom <$> records).

Definition DataFrame_of_records (records : list (gmap string pyval))
  : DataFrame :=
  (fun r => r ∪ gset_to_gmap PNaN (columns_of records)) <$> records.

End Pandas.

Export Pandas.

(** ** config.py *)

Module Config.

Definition airtable_id_col : string := "_aid".
Definition airtable_ref_table : string := "Tables".
Definition edge_source : string := "source".
Definition edge_target : string := "target".
Definition edge_label : string := "label".

End Config.

Export Config.

(** ** main.py: columns and rows *)

Definition keep_col_cond (column_name : pyval) : bool :=
  match column_name with
  | PStr s => negb (startswith "_" s)
  | _ => false
  end.

Definition edge_col_cond (column_name : pyval) : bool :=
  match column_name with
  | PStr s => isupper s
  | _ => false
  end.

Definition prop_col_cond (column_name : pyval) : bool :=
  match column_name with
  | PStr _ => negb (edge_col_cond column_name)
  | _ => false
  end.

(** [col.split('__')[0]]; a value that is not a string has no [split]. *)
Definition format_edge_col (col : pyval) : result pyval :=
  match col with
  | PStr s =>
      match split "__" s with
      | p :: _ => Ok (PStr p)
      | [] => Raise (IndexError "list index out of range")
      end
  | _ => Raise (AttributeError "split")
  end.

(** The three kinds of column, as [_split_node_edge] uses the predicates:
    [keep_col_cond] filters first, and on what is kept [edge_col_cond]
    selects the edge columns and [prop_col_cond] the property columns. *)
Inductive ColumnKind : Type := Ignored | Edge | Property.

#[global] Instance ColumnKind_eq_dec : EqDecision ColumnKind.
Proof. solve_decision. Defined.

Definition classify (column_name : pyval) : ColumnKind :=
  if keep_col_cond column_name then
    if edge_col_cond column_name then Edge
    else if prop_col_cond column_name then Property
    else Ignored
  else Ignored.

(** The pairs of the comprehension
    [{format_edge_col(k): v for k, v in its if edge_col_cond(k)}]. *)
Definition edge_pairs (its : dict) : result (list (pyval * pyval)) :=
  mapM (fun kv => l ← format_edge_col (fst kv); Ok (l, snd kv))
       (List.filter (fun kv => edge_col_cond (fst kv)) its).

Definition _split_node_edge (row : Series) : result Series :=
  fields ← getitem row "fields";
  its ← items fields;
  let row :=
    <["fields" :=
        PDict (dict_of_pairs (List.filter (fun kv => keep_col_cond (fst kv)) its))]>
      row in
  fields ← getitem row "fields";
  its ← items fields;
  eps ← edge_pairs its;
  let row := <["edges" := PDict (dict_of_pairs eps)]> row in
  fields ← getitem row "fields";
  its ← items fields;
  let row :=
    <["props" :=
        PDict (dict_of_pairs (List.filter (fun kv => prop_col_cond (fst kv)) its))]>
      row in
  let row := delete "fields" row in
  created ← getitem row "createdTime";
  let row := if truthy created then delete "createdTime" row else row in
  Ok row.

(** The columns the [edges] comprehension reads its items from: the
    source columns of the edge map. *)
Definition edge_source_columns (its : dict) : list pyval :=
  keys (List.filter (fun kv => edge_col_cond (fst kv)) its).

(** *** The classification as the specification words it *)

(** "Every character is uppercase", read literally. *)
Definition every_char_upper (s : string) : bool :=
  forallb is_upper (decode s).

(** The decision order of the specification with that reading. *)
Definition classify_as_stated (column_name : pyval) : ColumnKind :=
  match column_name with
  | PStr s =>
      if startswith "_" s then Ignored
      else if every_char_upper s then Edge
      else Property
  | _ => Ignored
  end.

(** What [str.isupper] decides: some uppercase character and no
    lowercase or titlecase one; characters without case are free. *)
Definition upper_cased (s : string) : bool :=
  existsb is_upper (decode s)
  && negb (existsb (fun c => is_lower c || is_title c) (decode s)).

(** ** main.py: the ingest job *)

(** What the job sends to the graph store, in the order it sends it.
    [batch_create_node], [create_constraint_for] and [batch_create_edge]
    belong to the store client; here they are recorded with their
    arguments. *)
Inductive event : Type :=
| Wipe
| Begin
| BatchCreateNode (label : string) (node_list : list pyval)
| CreateConstraintFor (label : string) (constraint : string)
| BatchCreateEdge (edge_list : list pyval)
| Commit
| Close.

#[global] Instance event_eq_dec : EqDecision event.
Proof. solve_decision. Defined.

(** The job monad: the events sent so far and a result or the exception
    that ended the run.  Events sent before an exception stay sent: each
    transaction was committed on its own. *)
Definition Job (A : Type) : Type := (list event * result A)%type.

Definition job_ret {A} (a : A) : Job A := ([], Ok a).

Definition job_bind {A B} (m : Job A) (f : A -> Job B) : Job B :=
  match m with
  | (t, Ok a) => let '(t', r) := f a in (t ++ t', r)
  | (t, Raise e) => (t, Raise e)
  end.

#[global] Instance Job_ret : MRet Job := fun A a => job_ret a.
#[global] Instance Job_bind : MBind Job := fun A B f m => job_bind m f.

Definition emit (e : event) : Job unit := ([e], Ok tt).

Definition lift {A} (r : result A) : Job A := ([], r).

(** A [for] loop whose body runs in the job monad. *)
Fixpoint for_each {A} (l : list A) (body : A -> Job unit) : Job unit :=
  match l with
  | [] => job_ret tt
  | x :: l' => job_bind (body x) (fun _ => for_each l' body)
  end.

(** The table names of the reference table, each with the frame
    [DataFrame(table.all())] of its records: one row per record.  The
    rows of a frame all have the frame's columns, so a [source] is what
    [frames_of] makes of the records; the Airtable client returns the
    keys [id], [createdTime] and [fields] for every record. *)
Definition source : Type := list (string * DataFrame).

(** The frames of the tables' records. *)
Definition frames_of (tables : list (string * list Series)) : source :=
  List.map (fun t => (fst t, DataFrame_of_records (snd t))) tables.

Definition _download_airtable_and_return_as_df (table : string * DataFrame)
  : result (string * DataFrame) :=
  let '(name, df) := table in
  df ← apply_rows _split_node_edge df;
  Ok (name, df).

Definition make_node_list (row : Series) : result pyval :=
  node ← getitem row "props";
  id ← getitem row "id";
  setitem node (PStr airtable_id_col) id.

(** One edge dictionary, built key by key. *)
Definition make_edge (id v_ k : pyval) : pyval :=
  let edge := [] in
  let edge := dict_set edge (PStr edge_source) id in
  let edge := dict_set edge (PStr edge_target) v_ in
  let edge := dict_set edge (PStr edge_label) k in
  PDict edge.

(** The innermost loop of the edge phase: the edges of one item [k, v]
    of a row's [edges] dictionary. *)
Definition label_edges (id : pyval) (kv : pyval * pyval) : result (list pyval) :=
  let '(k, v) := kv in
  vs ← iter v;
  Ok (List.map (fun v_ => make_edge id v_ k) vs).

(** The two inner loops of the edge phase for one row. *)
Definition row_edges (row : Series) : result (list pyval) :=
  id ← getitem row "id";
  edges ← getitem row "edges";
  its ← items edges;
  per_label ← mapM (label_edges id) its;
  Ok (concat per_label).

(** [edge_list] of one table: the rows of [df.iterrows()] in order. *)
Definition table_edges (df : DataFrame) : result (list pyval) :=
  per_row ← mapM row_edges df;
  Ok (concat per_row).

(** [df.apply(make_node_list, axis=1).to_list()]. *)
Definition node_list_of (df : DataFrame) : result (list pyval) :=
  a ← apply_values make_node_list df;
  to_list a.

(** The body of the loop under [# Create Nodes]. *)
Definition create_nodes (t : string * DataFrame) : Job unit :=
  let '(table, df) := t in
  node_list ← lift (node_list_of df);
  _ ← emit Begin;
  _ ← emit (BatchCreateNode table node_list);
  _ ← emit Commit;
  _ ← emit Close;
  _ ← emit Begin;
  _ ← emit (CreateConstraintFor table airtable_id_col);
  _ ← emit Commit;
  emit Close.

(** The body of the loop under [# Create Edges]. *)
Definition create_edges (t : string * DataFrame) : Job unit :=
  let '(table, df) := t in
  edge_list ← lift (table_edges df);
  _ ← emit Begin;
  _ ← emit (BatchCreateEdge edge_list);
  _ ← emit Commit;
  emit Close.

Definition run_airtable_to_neo4j_ingest_job (nuke : bool) (src : source)
  : Job unit :=
  dfs ← lift (mapM _download_airtable_and_return_as_df src);
  _ ← (if nuke then emit Wipe else job_ret tt);
  _ ← for_each dfs create_nodes;
  for_each dfs create_edges.

(** ** The graph store *)

Module Neo4j.

(** A node is known by its label and identifier; a placeholder, made
    only to give an edge an endpoint, has no label. *)
Abbreviation node_key := (option string * pyval)%type.

Record store : Type := Store {
  nodes : gmap node_key dict;
  edges : gset (pyval * pyval * pyval);
  constraints : gset (string * string)
}.

Definition empty : store := Store ∅ ∅ ∅.

(** Some node, of whatever label, carries the identifier. *)
Definition has_node (id : pyval) (s : store) : Prop :=
  set_Exists (fun k : node_key => snd k = id) (dom (nodes s)).

#[global] Instance has_node_dec id s : Decision (has_node id s).
Proof. unfold has_node. apply _. Defined.

(** [SET n += props]: the new properties are stored over the old ones. *)
Definition update_props (old new : dict) : dict :=
  fold_left (fun d kv => dict_set d (fst kv) (snd kv)) new old.

(** Modelled from the spec: [batch_create_node] of neo4j_functions.py,
    which is not among the sources, for one entry of the node list.  The
    write is a merge keyed on the identifier property under the table's
    label: the node is created if absent and updated in place otherwise.
    An entry that carries no identifier has no key and merges nothing. *)
Definition merge_node (label : string) (node : pyval) (s : store) : store :=
  match node with
  | PDict d =>
      match dict_get d (PStr airtable_id_col) with
      | Some id =>
          let old := default [] (nodes s !! (Some label, id)) in
          Store (<[(Some label, id) := update_props old d]> (nodes s))
                (edges s) (constraints s)
      | None => s
      end
  | _ => s
  end.

(** Merge by identifier on one endpoint of an edge: a node that carries
    the identifier is used as it is, otherwise a minimal placeholder is
    created. *)
Definition ensure_node (id : pyval) (s : store) : store :=
  if decide (has_node id s) then s
  else Store (<[(None, id) := [(PStr airtable_id_col, id)]]> (nodes s))
             (edges s) (constraints s).

(** Modelled from the spec: [batch_create_edge] of neo4j_functions.py,
    which is not among the sources, for one edge tuple.  The endpoints
    are resolved by identifier across all labels, and the relationship
    is merged on its (source, target, label) tuple. *)
Definition merge_edge (edge : pyval) (s : store) : store :=
  match edge with
  | PDict d =>
      match dict_get d (PStr edge_source), dict_get d (PStr edge_target),
            dict_get d (PStr edge_label) with
      | Some a, Some b, Some l =>
          let s := ensure_node a s in
          let s := ensure_node b s in
          Store (nodes s) ({[ (a, b, l) ]} ∪ edges s) (constraints s)
      | _, _, _ => s
      end
  | _ => s
  end.

(** Modelled from the spec: [create_constraint_for] of
    neo4j_functions.py, which is not among the sources: the uniqueness
    constraint on a property of a label is declared. *)
Definition declare_constraint (label property : string) (s : store) : store :=
  Store (nodes s) (edges s) ({[ (label, property) ]} ∪ constraints s).

(** [MATCH (n) DETACH DELETE n]: every node and relationship goes. *)
Definition wipe (s : store) : store := Store ∅ ∅ (constraints s).

(** The writes of the store, one per entry of a batch. *)
Inductive write : Type :=
| MergeNode (label : string) (node : pyval)
| MergeEdge (edge : pyval)
| DeclareConstraint (label property : string)
| DeleteAll.

Definition exec_write (w : write) (s : store) : store :=
  match w with
  | MergeNode label node => merge_node label node s
  | MergeEdge edge => merge_edge edge s
  | DeclareConstraint label property => declare_constraint label property s
  | DeleteAll => wipe s
  end.

(** The writes one event of the job asks for, in order; opening,
    committing and closing a transaction writes nothing by itself. *)
Definition writes_of (e : event) : list write :=
  match e with
  | Wipe => [DeleteAll]
  | BatchCreateNode label node_list => List.map (MergeNode label) node_list
  | CreateConstraintFor label property => [DeclareConstraint label property]
  | BatchCreateEdge edge_list => List.map MergeEdge edge_list
  | Begin | Commit | Close => []
  end.

Definition exec_writes (ws : list write) (s : store) : store :=
  fold_left (fun s w => exec_write w s) ws s.

(** The store after the events of a run. *)
Definition exec (trace : list event) (s : store) : store :=
  exec_writes (flat_map writes_of trace) s.

Definition node_count (s : store) : nat := size (nodes s).
Definition edge_count (s : store) : nat := size (edges s).

(** One store holds at least the node keys, relationships and
    constraints of another. *)
Definition included (s s' : store) : Prop :=
  dom (nodes s) ⊆ dom (nodes s')
  /\ edges s ⊆ edges s'
  /\ constraints s ⊆ constraints s'.

(** Two stores have the same node keys, relationships and constraints. *)
Definition same_shape (s s' : store) : Prop :=
  dom (nodes s) = dom (nodes s')
  /\ edges s = edges s'
  /\ constraints s = constraints s'.

(** The store already has what a write merges. *)
Definition absorbed (w : write) (s : store) : Prop :=
  match w with
  | MergeNode label (PDict d) =>
      match dict_get d (PStr airtable_id_col) with
      | Some id => (Some label, id) ∈ dom (nodes s)
      | None => True
      end
  | MergeNode _ _ => True
  | MergeEdge (PDict d) =>
      match dict_get d (PStr edge_source), dict_get d (PStr edge_target),
            dict_get d (PStr edge_label) with
      | Some a, Some b, Some l =>
          has_node a s /\ has_node b s /\ (a, b, l) ∈ edges s
      | _, _, _ => True
      end
  | MergeEdge _ => True
  | DeclareConstraint label property => (label, property) ∈ constraints s
  | DeleteAll => False
  end.

(** The nodes of one label. *)
Definition labelled (label : string) (s : store) : gmap node_key dict :=
  filter (fun kv => fst (fst kv) = Some label) (nodes s).

End Neo4j.

(** ** Sample data *)

Module Sample.

(** The record of the specification's re-ingest example. *)
Definition ada_fields : dict :=
  [(PStr "Name", PStr "Ada");
   (PStr "FRIENDS", PList [PStr "rec00000000000002"])].

Definition ada : Series :=
  {[ "id" := PStr "rec00000000000001";
     "createdTime" := PStr "2022-03-01T10:00:00.000Z";
     "fields" := PDict ada_fields ]}.

Definition people : source := [("People", [ada])].

(** A record whose only column is [FRIENDS__weight]. *)
Definition weighted : Series :=
  {[ "id" := PStr "rec00000000000001";
     "createdTime" := PStr "2022-03-01T10:00:00.000Z";
     "fields" := PDict [(PStr "FRIENDS__weight", PList [PStr "rec00000000000002"])] ]}.

(** A record whose only column is [FRIENDS__WEIGHT]. *)
Definition weighted_upper : Series :=
  {[ "id" := PStr "rec00000000000001";
     "createdTime" := PStr "2022-03-01T10:00:00.000Z";
     "fields" := PDict [(PStr "FRIENDS__WEIGHT", PList [PStr "rec00000000000002"])] ]}.



(** What the job has sent for [people] when its edge batch goes out. *)
Definition people_before_edges : list event :=
  [Begin;
   BatchCreateNode "People"
     [PDict [(PStr "Name", PStr "Ada");
             (PStr "_aid", PStr "rec00000000000001")]];
   Commit; Close;
   Begin; CreateConstraintFor "People" "_aid"; Commit; Close;
   Begin].

Definition people_edge_list : list pyval :=
  [PDict [(PStr "source", PStr "rec00000000000001");
          (PStr "target", PStr "rec00000000000002");
          (PStr "label", PStr "FRIENDS")]].

(** A record without an identifier. *)
Definition anonymous : Series := delete "id" ada.

End Sample.

(** ** Deciding results *)

#[global] Instance exn_eq_dec : EqDecision exn.
Proof. solve_decision. Defined.

#[global] Instance result_eq_dec {A} `{EqDecision A} : EqDecision (result A).
Proof. solve_decision. Defined.

(** ** main.py: the record identifier test *)

(** [s.isalnum()] of a string: some character, and all alphanumeric. *)
Definition str_isalnum (s : string) : bool :=
  match decode s with
  | [] => false
  | cs => forallb is_alnum cs
  end.

(** [v.isalnum()]: a method of strings only. *)
Definition isalnum (v : pyval) : result bool :=
  match v with
  | PStr s => Ok (str_isalnum s)
  | _ => Raise (AttributeError "isalnum")
  end.

(** [len(v)]; the length of a string counts its characters. *)
Definition len (v : pyval) : result nat :=
  match v with
  | PStr s => Ok (length (decode s))
  | PList l => Ok (length l)
  | PDict d => Ok (length d)
  | PNone | PBool _ | PInt _ | PNaN =>
      Raise (TypeError "object has no len()")
  end.

(** [v.startswith(pre)] on a value. *)
Definition startswith_method (v : pyval) (pre : string) : result bool :=
  match v with
  | PStr s => Ok (startswith pre s)
  | _ => Raise (AttributeError "startswith")
  end.

Definition isinstance_str (v : pyval) : bool :=
  match v with
  | PStr _ => true
  | _ => false
  end.

(** The tuple handed to [all] is built first, element by element, so
    every test runs whatever the one before it answered. *)
Definition is_airtable_record_id (record : pyval) : result bool :=
  let t1 := isinstance_str record in
  t2 ← isalnum record;
  n ← len record;
  t4 ← startswith_method record "rec";
  Ok (forallb (fun b : bool => b) [t1; t2; Nat.eqb n 17; t4]).

(** ** Reading a trace *)

(** The node batches of a trace, in order, with their labels. *)
Definition node_batches (t : list event) : list (string * list pyval) :=
  flat_map (fun e => match e with
                     | BatchCreateNode label nl => [(label, nl)]
                     | _ => []
                     end) t.

(** The constraints a trace declares, in order. *)
Definition constraint_decls (t : list event) : list (string * string) :=
  flat_map (fun e => match e with
                     | CreateConstraintFor label c => [(label, c)]
                     | _ => []
                     end) t.

(** The edge batches of a trace, in order. *)
Definition edge_batches (t : list event) : list (list pyval) :=
  flat_map (fun e => match e with
                     | BatchCreateEdge el => [el]
                     | _ => []
                     end) t.

Definition is_write (e : event) : bool :=
  match e with
  | BatchCreateNode _ _ | CreateConstraintFor _ _ | BatchCreateEdge _ => true
  | Wipe | Begin | Commit | Close => false
  end.

(** A trace made of whole transactions: each is opened, runs one write,
    is committed and closed before the next one opens. *)
Fixpoint whole_transactions (t : list event) : bool :=
  match t with
  | [] => true
  | Begin :: w :: Commit :: Close :: t' => is_write w && whole_transactions t'
  | _ => false
  end.

(** ** More sample data *)

Module Fixture.

(** The sample record once split. *)
Definition ada_split : Series :=
  {[ "id" := PStr "rec00000000000001";
     "edges" := PDict [(PStr "FRIENDS", PList [PStr "rec00000000000002"])];
     "props" := PDict [(PStr "Name", PStr "Ada")] ]}.

(** A record with two edge columns of one label. *)
Definition twins_fields : dict :=
  [(PStr "KNOWS__A", PList [PStr "rec00000000000002"]);
   (PStr "Name", PStr "Ada");
   (PStr "KNOWS__B", PList [PStr "rec00000000000003"])].

Definition twins : Series :=
  {[ "id" := PStr "rec00000000000001";
     "createdTime" := PStr "2022-03-01T10:00:00.000Z";
     "fields" := PDict twins_fields ]}.

Definition twins_split : Series :=
  {[ "id" := PStr "rec00000000000001";
     "edges" := PDict [(PStr "KNOWS", PList [PStr "rec00000000000003"])];
     "props" := PDict [(PStr "Name", PStr "Ada")] ]}.

(** The records of a table in which one record has no [id], and the
    second row of their frame. *)
Definition ragged_records : list Series := [Sample.ada; Sample.anonymous].

Definition nan_row : Series := <["id" := PNaN]> Sample.ada.

Definition anonymous_split : Series := delete "id" ada_split.

(** A record without the [fields] cell. *)
Definition bare : Series :=
  {[ "id" := PStr "rec00000000000009";
     "createdTime" := PStr "2022-03-01T10:00:00.000Z" ]}.

(** A split row whose edge column holds a number. *)
Definition numbered_split : Series :=
  {[ "id" := PStr "rec00000000000001";
     "edges" := PDict [(PStr "FRIENDS", PInt 7)];
     "props" := PDict [] ]}.

End Fixture.

(** * Properties *)

(** ** Strings *)

Example split_examples :
  split "__" "a___b" = ["a"; "_b"]
  /\ split "__" "FRIENDS__weight__x" = ["FRIENDS"; "weight"; "x"]
  /\ split "__" "" = [""]
  /\ split "__" "a____" = ["a"; ""; ""]
  /\ split "__" "NAME" = ["NAME"].
Proof. repeat split. Qed.

Example isupper_beyond_ascii :
  isupper "É" = true
  /\ isupper "éB" = false
  /\ isupper "ǅ" = false
  /\ decode "É€" = [201; 8364]%N.
Proof. repeat split; vm_compute; reflexivity. Qed.

Example isupper_examples :
  isupper "HAS_FRIEND" = true
  /\ isupper "A1" = true
  /\ isupper "" = false
  /\ isupper "123" = false
  /\ isupper "Ab" = false
  /\ isupper "FRIENDS__weight" = false.
Proof. repeat split. Qed.


Lemma isupper_from_spec (cased : bool) (cs : list N) :
  isupper_from cased cs
  = (cased || existsb is_upper cs)
    && negb (existsb (fun c => is_lower c || is_title c) cs).
Proof.
  revert cased. induction cs as [|c cs IH]; intros cased; cbn [isupper_from existsb].
  - now rewrite orb_false_r, andb_true_r.
  - destruct (is_lower c || is_title c); cbn [orb negb].
    + now rewrite andb_false_r.
    + rewrite IH. now rewrite orb_assoc.
Qed.

Lemma isupper_spec (s : string) : isupper s = upper_cased s.
Proof. unfold isupper, upper_cased. now rewrite isupper_from_spec. Qed.

(** The first piece of a split ends where the separator first starts. *)
Lemma split_from_first (sep s : string) :
  let p := fst (split_from sep 0 s) in
  exists rest,
    s = p +:+ rest
    /\ (rest = "" \/ startswith sep rest = true)
    /\ forall pre post,
         s = pre +:+ post -> String.length pre < String.length p ->
         startswith sep post = false.
Proof.
  induction s as [|c s IH]; simpl.
  - exists "". repeat split; [now left|]. intros pre post _ H. simpl in H. lia.
  - destruct (startswith sep (String c s)) eqn:E; simpl.
    + exists (String c s). repeat split; [now right|].
      intros pre post _ H. simpl in H. lia.
    + destruct (split_from sep 0 s) as [p ps] eqn:Es. simpl in *.
      destruct IH as (rest & Hs & Hrest & Hfirst).
      exists rest. repeat split; [now rewrite Hs at 1| exact Hrest |].
      intros pre post Hpp Hlen. destruct pre as [|c' pre]; simpl in *.
      * change (String c s = post) in Hpp. now subst post.
      * change (String c s = String c' (pre +:+ post)) in Hpp.
        injection Hpp as -> Hpp. apply (Hfirst pre post Hpp). lia.
Qed.

Lemma format_edge_col_str (s : string) :
  format_edge_col (PStr s) = Ok (PStr (fst (split_from "__" 0 s))).
Proof.
  unfold format_edge_col, split.
  now destruct (split_from "__" 0 s) as [p ps].
Qed.

Lemma edge_col_cond_str (k : pyval) :
  edge_col_cond k = true -> exists s, k = PStr s /\ isupper s = true.
Proof. destruct k; simpl; try discriminate. eauto. Qed.

(** On a string the property test is the negation of the edge test. *)
Lemma prop_col_cond_kept (k : pyval) :
  keep_col_cond k = true -> prop_col_cond k = negb (edge_col_cond k).
Proof. now destruct k. Qed.

(** ** Dictionaries *)

Lemma keys_dict_set_in (d : dict) (k v : pyval) :
  k ∈ keys d -> keys (dict_set d k v) = keys d.
Proof.
  induction d as [|[k' v'] d IH]; simpl; intros H.
  - now apply elem_of_nil in H.
  - destruct (decide (k' = k)) as [->|N]; simpl; [reflexivity|].
    apply elem_of_cons in H as [->|H]; [congruence|]. now rewrite IH.
Qed.

Lemma dict_set_fresh (d : dict) (k v : pyval) :
  k ∉ keys d -> dict_set d k v = d ++ [(k, v)].
Proof.
  induction d as [|[k' v'] d IH]; simpl; intros H; [reflexivity|].
  apply not_elem_of_cons in H as [N H].
  destruct (decide (k' = k)) as [->|_]; [congruence|]. now rewrite IH.
Qed.

Lemma elem_of_keys_dict_set (d : dict) (k v k' : pyval) :
  k' ∈ keys (dict_set d k v) <-> k' = k \/ k' ∈ keys d.
Proof.
  destruct (decide (k ∈ keys d)) as [H|H].
  - rewrite keys_dict_set_in by exact H. split; [tauto|]. now intros [->|].
  - rewrite dict_set_fresh by exact H. unfold keys. rewrite map_app. simpl.
    rewrite elem_of_app, list_elem_of_singleton. tauto.
Qed.

Lemma NoDup_keys_dict_set (d : dict) (k v : pyval) :
  NoDup (keys d) -> NoDup (keys (dict_set d k v)).
Proof.
  intros Hd. destruct (decide (k ∈ keys d)) as [H|H].
  - now rewrite keys_dict_set_in.
  - rewrite dict_set_fresh by exact H. unfold keys. rewrite map_app. simpl.
    apply NoDup_app. repeat split; [exact Hd| |apply NoDup_singleton].
    intros x Hx ->%list_elem_of_singleton. now apply H.
Qed.

Lemma dict_get_set_eq (d : dict) (k v : pyval) :
  dict_get (dict_set d k v) k = Some v.
Proof.
  induction d as [|[k' v'] d IH]; simpl.
  - now rewrite decide_True.
  - destruct (decide (k' = k)) as [->|N]; simpl.
    + now rewrite decide_True.
    + now rewrite decide_False.
Qed.

Lemma update_keys (new old : dict) :
  (forall k, k ∈ keys (fold_left (fun d kv => dict_set d (fst kv) (snd kv)) new old)
             <-> k ∈ keys old \/ k ∈ keys new)
  /\ (NoDup (keys old) ->
      NoDup (keys (fold_left (fun d kv => dict_set d (fst kv) (snd kv)) new old))).
Proof.
  revert old. induction new as [|[k v] new IH]; intros old; simpl.
  - split; [|tauto]. intros k. rewrite elem_of_nil. tauto.
  - destruct (IH (dict_set old k v)) as [Hin Hnd]. split.
    + intros k'. rewrite Hin, elem_of_keys_dict_set, elem_of_cons. tauto.
    + intros H. now apply Hnd, NoDup_keys_dict_set.
Qed.

Lemma elem_of_keys_dict_of_pairs (kvs : list (pyval * pyval)) (k : pyval) :
  k ∈ keys (dict_of_pairs kvs) <-> k ∈ keys kvs.
Proof.
  unfold dict_of_pairs. rewrite (proj1 (update_keys kvs [])).
  simpl. rewrite elem_of_nil. tauto.
Qed.

Lemma fold_dict_set_fresh (kvs old : dict) :
  NoDup (keys old ++ keys kvs) ->
  fold_left (fun d kv => dict_set d (fst kv) (snd kv)) kvs old = old ++ kvs.
Proof.
  revert old. induction kvs as [|[k v] kvs IH]; intros old H; simpl.
  - now rewrite app_nil_r.
  - simpl in H. apply NoDup_app in H as (Ho & Hdis & Hk).
    apply NoDup_cons in Hk as [Hk Hkvs].
    rewrite dict_set_fresh.
    + rewrite IH; [now rewrite <- app_assoc|].
      unfold keys. rewrite map_app. simpl. rewrite <- app_assoc. simpl.
      apply NoDup_app. repeat split; [exact Ho | | now apply NoDup_cons].
      intros x Hx. now apply Hdis.
    + intros Hin. apply (Hdis k Hin). now left.
Qed.

(** A comprehension over pairs with distinct keys stores them as they
    come. *)
Lemma dict_of_pairs_NoDup (kvs : list (pyval * pyval)) :
  NoDup (keys kvs) -> dict_of_pairs kvs = kvs.
Proof. intros H. unfold dict_of_pairs. now rewrite fold_dict_set_fresh. Qed.

(** ** Splitting a row *)

Lemma filter_keys_elem (f : pyval -> bool) (d : dict) (k : pyval) :
  k ∈ keys (List.filter (fun kv => f (fst kv)) d) <-> k ∈ keys d /\ f k = true.
Proof.
  unfold keys. induction d as [|[k' v'] d IH]; simpl.
  - rewrite elem_of_nil. tauto.
  - destruct (f k') eqn:E; simpl; rewrite ?elem_of_cons, IH.
    + split; [intros [->|[H Hf]]; tauto | tauto].
    + split; [tauto | intros [[->|H] Hf]; [congruence | tauto]].
Qed.

Lemma filter_keys_NoDup (f : pyval -> bool) (d : dict) :
  NoDup (keys d) -> NoDup (keys (List.filter (fun kv => f (fst kv)) d)).
Proof.
  induction d as [|[k' v'] d IH]; simpl; [tauto|].
  change (keys ((k', v') :: d)) with (k' :: keys d).
  intros [Hk Hd]%NoDup_cons. destruct (f k'); simpl; [|now apply IH].
  change (keys ((k', v') :: ?l)) with (k' :: keys l).
  apply NoDup_cons. split; [|now apply IH].
  intros H%filter_keys_elem. now apply Hk.
Qed.

Lemma keys_filter (f : pyval -> bool) (d : dict) :
  keys (List.filter (fun kv => f (fst kv)) d) = List.filter f (keys d).
Proof.
  unfold keys. induction d as [|[k' v'] d IH]; simpl; [reflexivity|].
  destruct (f k'); simpl; now rewrite IH.
Qed.

(** The key expression of the [edges] comprehension never raises: the
    filter lets only strings through. *)
Lemma edge_pairs_ok (its : dict) :
  exists eps,
    edge_pairs its = Ok eps
    /\ Forall2 (fun kv ep => format_edge_col (fst kv) = Ok (fst ep)
                             /\ snd ep = snd kv)
               (List.filter (fun kv => edge_col_cond (fst kv)) its) eps.
Proof.
  unfold edge_pairs. induction its as [|[k v] its IH]; simpl.
  - exists []. split; [reflexivity | constructor].
  - destruct (edge_col_cond k) eqn:E; [|exact IH].
    destruct IH as (eps & Heps & HF).
    destruct (edge_col_cond_str k E) as (s & -> & _).
    cbn [mapM fst snd]. rewrite Heps, format_edge_col_str.
    eexists. split; [reflexivity|]. constructor; [|exact HF].
    cbn [fst snd]. now rewrite format_edge_col_str.
Qed.

(** What [_split_node_edge] returns on a row that has its [fields]
    dictionary and its [createdTime] cell. *)
Lemma split_node_edge_ok (row : Series) (d : dict) (c : pyval) :
  row !! "fields" = Some (PDict d) ->
  row !! "createdTime" = Some c ->
  let kept := dict_of_pairs (List.filter (fun kv => keep_col_cond (fst kv)) d) in
  exists eps,
    edge_pairs kept = Ok eps
    /\ _split_node_edge row
       = Ok ((if truthy c then delete "createdTime" else fun r => r)
               (delete "fields"
                  (<["props" :=
                       PDict (dict_of_pairs
                                (List.filter (fun kv => prop_col_cond (fst kv)) kept))]>
                     (<["edges" := PDict (dict_of_pairs eps)]>
                        (<["fields" := PDict kept]> row))))).
Proof.
  intros Hf Hc kept.
  destruct (edge_pairs_ok kept) as (eps & Heps & _).
  exists eps. split; [exact Heps|].
  unfold _split_node_edge, getitem. rewrite Hf. simpl.
  rewrite lookup_insert_eq. simpl. fold kept. rewrite Heps. simpl.
  rewrite lookup_insert_ne by done. rewrite lookup_insert_eq. simpl.
  rewrite lookup_delete_ne by done.
  rewrite !lookup_insert_ne by done. rewrite Hc. simpl.
  now destruct (truthy c).
Qed.

Lemma classify_Ignored (k : pyval) :
  classify k = Ignored <-> keep_col_cond k = false.
Proof.
  unfold classify. destruct (keep_col_cond k) eqn:E; [|tauto].
  rewrite (prop_col_cond_kept k E).
  destruct (edge_col_cond k); simpl; split; discriminate.
Qed.

Lemma classify_Edge (k : pyval) :
  classify k = Edge <-> keep_col_cond k = true /\ edge_col_cond k = true.
Proof.
  unfold classify. destruct (keep_col_cond k) eqn:E.
  - rewrite (prop_col_cond_kept k E).
    destruct (edge_col_cond k); simpl; split; try tauto; try discriminate.
    now intros [_ ?].
  - split; [discriminate | now intros [? _]].
Qed.

Lemma classify_Property (k : pyval) :
  classify k = Property <-> keep_col_cond k = true /\ edge_col_cond k = false.
Proof.
  unfold classify. destruct (keep_col_cond k) eqn:E.
  - rewrite (prop_col_cond_kept k E).
    destruct (edge_col_cond k); simpl; split; try tauto; try discriminate.
    now intros [_ ?].
  - split; [discriminate | now intros [? _]].
Qed.

Lemma filter_split_perm {A} (f g : A -> bool) (l : list A) :
  (forall x, x ∈ l -> g x = negb (f x)) ->
  List.filter g l ++ List.filter f l ≡ₚ l.
Proof.
  induction l as [|x l IH]; intros H; simpl; [reflexivity|].
  assert (Hx : g x = negb (f x)) by (apply H; now left).
  assert (IH' : List.filter g l ++ List.filter f l ≡ₚ l)
    by (apply IH; intros y Hy; apply H; now right).
  rewrite Hx. destruct (f x); simpl.
  - rewrite <- Permutation_middle. now constructor.
  - now constructor.
Qed.

Lemma filter_ext_elem {A} (f g : A -> bool) (l : list A) :
  (forall x, x ∈ l -> f x = g x) -> List.filter f l = List.filter g l.
Proof.
  induction l as [|x l IH]; intros H; simpl; [reflexivity|].
  rewrite (H x) by now left. rewrite IH; [reflexivity|].
  intros y Hy. apply H. now right.
Qed.

(** C4.  For a row whose [fields] dictionary has distinct keys (as every
    Python dictionary has) and whose [createdTime] cell is present,
    [_split_node_edge] returns, and the keys of [props] together with
    the source columns of [edges] are, up to order, exactly the columns
    that are not [Ignored]; no column is on both sides, none is counted
    twice, and the keys of [edges] are exactly the labels of the source
    columns. *)
Theorem split_node_edge_partition (row : Series) (d : dict) (c : pyval) :
  row !! "fields" = Some (PDict d) ->
  NoDup (keys d) ->
  row !! "createdTime" = Some c ->
  exists (row' : Series) (props edges : dict),
    _split_node_edge row = Ok row'
    /\ row' !! "props" = Some (PDict props)
    /\ row' !! "edges" = Some (PDict edges)
    /\ let sources :=
         edge_source_columns
           (List.filter (fun kv => keep_col_cond (fst kv)) d) in
       keys props ++ sources
         ≡ₚ List.filter (fun k => bool_decide (classify k <> Ignored)) (keys d)
       /\ NoDup (keys props ++ sources)
       /\ (forall k, ~ (k ∈ keys props /\ k ∈ sources))
       /\ (forall l, l ∈ keys edges
                     <-> exists k, k ∈ sources /\ format_edge_col k = Ok l).
Proof.
  intros Hf Hd Hc.
  destruct (split_node_edge_ok row d c Hf Hc) as (eps & Heps & Hsplit).
  set (kept := List.filter (fun kv => keep_col_cond (fst kv)) d) in *.
  assert (Hkept : NoDup (keys kept)) by now apply filter_keys_NoDup.
  rewrite (dict_of_pairs_NoDup kept Hkept) in Heps, Hsplit.
  rewrite (dict_of_pairs_NoDup (List.filter _ kept)) in Hsplit
    by now apply filter_keys_NoDup.
  destruct (edge_pairs_ok kept) as (eps' & Heps' & HF).
  rewrite Heps in Heps'. injection Heps' as <-.
  eexists _, _, _. split; [exact Hsplit|].
  split; [|split].
  { destruct (truthy c); [rewrite lookup_delete_ne by done|];
      rewrite lookup_delete_ne by done; now rewrite lookup_insert_eq. }
  { destruct (truthy c); [rewrite lookup_delete_ne by done|];
      rewrite lookup_delete_ne by done; rewrite lookup_insert_ne by done;
      now rewrite lookup_insert_eq. }
  intros sources.
  assert (Hperm : keys (List.filter (fun kv => prop_col_cond (fst kv)) kept)
                    ++ sources ≡ₚ keys kept).
  { unfold sources, edge_source_columns. rewrite !keys_filter.
    apply filter_split_perm. intros k Hk. apply prop_col_cond_kept.
    unfold kept in Hk. rewrite keys_filter in Hk.
    apply list_elem_of_In, filter_In in Hk. tauto. }
  assert (Hnd : NoDup (keys (List.filter (fun kv => prop_col_cond (fst kv)) kept)
                         ++ sources)).
  { now rewrite Hperm. }
  split; [|split; [exact Hnd | split]].
  - rewrite Hperm. unfold kept. rewrite keys_filter.
    erewrite filter_ext_elem; [reflexivity|]. intros k _.
    destruct (keep_col_cond k) eqn:E.
    + symmetry. apply bool_decide_eq_true. rewrite classify_Ignored. congruence.
    + symmetry. apply bool_decide_eq_false. intros N. apply N.
      now apply classify_Ignored.
  - intros k [Hp Hs]. apply NoDup_app in Hnd as (_ & Hdis & _).
    exact (Hdis k Hp Hs).
  - intros l. rewrite elem_of_keys_dict_of_pairs.
    unfold sources, edge_source_columns.
    clear -HF. induction HF as [|[k v] [l' v'] its eps' [Hl Hv] HF IH]; simpl.
    + split; [now intros ?%elem_of_nil | now intros (k & ?%elem_of_nil & _)].
    + simpl in Hl, Hv.
      change (keys ((l', v') :: eps')) with (l' :: keys eps').
      change (keys ((k, v) :: its)) with (k :: keys its).
      rewrite elem_of_cons, IH. split.
      * intros [->|(k0 & Hk0 & Hl0)].
        -- exists k. split; [now left | exact Hl].
        -- exists k0. split; [now right | exact Hl0].
      * intros (k0 & [->|Hk0]%elem_of_cons & Hl0).
        -- left. congruence.
        -- right. eauto.
Qed.

(** ** Classifying a column *)

(** C5, as the code decides it.  The three predicates are total; a value
    that is not a string fails all three and is [Ignored]; a string that
    starts with the underscore is [Ignored]; otherwise a string with some
    uppercase character and no lowercase or titlecase character is an
    [Edge] column, whatever digits, underscores and other caseless
    characters it has; every other string, the empty one included, is a
    [Property] column.  The characters are those of the whole of
    Unicode. *)
Theorem column_classification (column_name : pyval) :
  match column_name with
  | PStr s =>
      keep_col_cond column_name = negb (startswith "_" s)
      /\ edge_col_cond column_name = upper_cased s
      /\ prop_col_cond column_name = negb (upper_cased s)
      /\ classify column_name
         = (if startswith "_" s then Ignored
            else if upper_cased s then Edge
            else Property)
  | _ =>
      keep_col_cond column_name = false
      /\ edge_col_cond column_name = false
      /\ prop_col_cond column_name = false
      /\ classify column_name = Ignored
  end.
Proof.
  destruct column_name as [| | |s| | |]; try (repeat split; reflexivity).
  cbv [classify keep_col_cond edge_col_cond prop_col_cond].
  rewrite isupper_spec.
  destruct (startswith "_" s), (upper_cased s); repeat split.
Qed.

(** C5, counterexample to the literal reading: in [HAS_FRIEND] not every
    character is an uppercase letter, so the stated order makes it a
    property column, while the code makes it an edge column; and the
    empty name, whose characters are vacuously all uppercase, is a
    property column for the code. *)
Lemma classification_not_every_char_upper :
  every_char_upper "HAS_FRIEND" = false
  /\ classify_as_stated (PStr "HAS_FRIEND") = Property
  /\ classify (PStr "HAS_FRIEND") = Edge
  /\ classify_as_stated (PStr "") = Edge
  /\ classify (PStr "") = Property.
Proof. repeat split. Qed.

(** ** The edge label *)

(** C6, as the code has it.  [format_edge_col] returns the part of a
    name before the leftmost double underscore, the whole name when
    there is none; it is defined on every edge column.  It maps
    [FRIENDS__weight] to [FRIENDS] too, but only a name that is an edge
    column reaches it: the row with the column [FRIENDS__WEIGHT] gets the
    edge label [FRIENDS], whatever the value. *)
Theorem edge_label_truncation :
  (forall s : string,
     exists label rest : string,
       format_edge_col (PStr s) = Ok (PStr label)
       /\ s = label +:+ rest
       /\ (rest = "" \/ startswith "__" rest = true)
       /\ forall pre post : string,
            s = pre +:+ post ->
            String.length pre < String.length label ->
            startswith "__" post = false)
  /\ (forall k : pyval,
        classify k = Edge -> exists label, format_edge_col k = Ok (PStr label))
  /\ format_edge_col (PStr "FRIENDS__weight") = Ok (PStr "FRIENDS")
  /\ classify (PStr "FRIENDS__WEIGHT") = Edge
  /\ (forall (row : Series) (v c : pyval),
        row !! "fields" = Some (PDict [(PStr "FRIENDS__WEIGHT", v)]) ->
        row !! "createdTime" = Some c ->
        exists row' : Series,
          _split_node_edge row = Ok row'
          /\ row' !! "edges" = Some (PDict [(PStr "FRIENDS", v)])
          /\ row' !! "props" = Some (PDict [])).
Proof.
  split; [|split; [|split; [|split]]].
  - intros s. destruct (split_from_first "__" s) as (rest & H1 & H2 & H3).
    exists (fst (split_from "__" 0 s)), rest.
    split; [apply format_edge_col_str | auto].
  - intros k (_ & Hk)%classify_Edge.
    destruct (edge_col_cond_str k Hk) as (s & -> & _).
    eexists. apply format_edge_col_str.
  - reflexivity.
  - reflexivity.
  - intros row v c Hf Hc.
    destruct (split_node_edge_ok row _ c Hf Hc) as (eps & Heps & Hsplit).
    cbv in Heps. injection Heps as <-.
    eexists. split; [exact Hsplit|].
    split.
    + destruct (truthy c); [rewrite lookup_delete_ne by done|];
        rewrite lookup_delete_ne by done; rewrite lookup_insert_ne by done;
        now rewrite lookup_insert_eq.
    + destruct (truthy c); [rewrite lookup_delete_ne by done|];
        rewrite lookup_delete_ne by done; now rewrite lookup_insert_eq.
Qed.

Example uppercase_suffix_sample :
  (row' ← _split_node_edge Sample.weighted_upper; getitem row' "edges")
  = Ok (PDict [(PStr "FRIENDS", PList [PStr "rec00000000000002"])])
  /\ (row' ← _split_node_edge Sample.weighted_upper; row_edges row')
     = Ok Sample.people_edge_list.
Proof. split; vm_compute; reflexivity. Qed.

(** C6, counterexample: the column [FRIENDS__weight] has lowercase
    letters, so it is a property column; the row that holds it gets no
    edge label at all, and the column lands in [props] under its full
    name. *)
Lemma lowercase_suffix_yields_no_edge_label :
  classify (PStr "FRIENDS__weight") = Property
  /\ (row' ← _split_node_edge Sample.weighted; getitem row' "edges")
     = Ok (PDict [])
  /\ (row' ← _split_node_edge Sample.weighted; getitem row' "props")
     = Ok (PDict [(PStr "FRIENDS__weight", PList [PStr "rec00000000000002"])]).
Proof. repeat split; vm_compute; reflexivity. Qed.

(** ** Flattening the edges of a row *)

Lemma mapM_Ok_inv {A B} (f : A -> result B) (l : list A) (r : list B) :
  mapM f l = Ok r -> Forall2 (fun x y => f x = Ok y) l r.
Proof.
  revert r. induction l as [|x l IH]; intros r; simpl.
  - intros [= <-]. constructor.
  - destruct (f x) as [y|e] eqn:E; simpl; [|discriminate].
    destruct (mapM f l) as [ys|e]; simpl; [|discriminate].
    intros [= <-]. constructor; [exact E | now apply IH].
Qed.

Lemma mapM_app {A B} (f : A -> result B) (l1 l2 : list A) (r1 r2 : list B) :
  mapM f l1 = Ok r1 -> mapM f l2 = Ok r2 -> mapM f (l1 ++ l2) = Ok (r1 ++ r2).
Proof.
  revert r1. induction l1 as [|x l1 IH]; intros r1; simpl.
  - now intros [= <-].
  - destruct (f x) as [y|e]; simpl; [|discriminate].
    destruct (mapM f l1) as [ys|e]; simpl; [|discriminate].
    intros [= <-] H2. now rewrite (IH ys eq_refl H2).
Qed.




(** ** Rows without an identifier, and the identifier key *)

(** [_split_node_edge] returns only on a row with a [fields] dictionary
    and a [createdTime] cell. *)
Lemma split_node_edge_inv (row row' : Series) :
  _split_node_edge row = Ok row' ->
  exists d c, row !! "fields" = Some (PDict d) /\ row !! "createdTime" = Some c.
Proof.
  intros H. destruct (row !! "fields") as [f|] eqn:Hf.
  - destruct (row !! "createdTime") as [c|] eqn:Hc.
    + destruct f; try (unfold _split_node_edge, getitem in H; rewrite Hf in H;
                       discriminate).
      eauto.
    + exfalso. unfold _split_node_edge, getitem in H. rewrite Hf in H.
      destruct f; try discriminate. simpl in H.
      rewrite lookup_insert_eq in H. simpl in H.
      destruct (edge_pairs _) as [eps|e]; simpl in H; [|discriminate].
      rewrite lookup_insert_ne in H by done. rewrite lookup_insert_eq in H.
      simpl in H. rewrite lookup_delete_ne in H by done.
      rewrite !lookup_insert_ne in H by done. rewrite Hc in H. discriminate.
  - unfold _split_node_edge, getitem in H. rewrite Hf in H. discriminate.
Qed.

(** The cells of a split row: [id] as it was, [props] with the kept
    property columns, [edges], and no [fields]. *)
Lemma split_node_edge_cells (row row' : Series) :
  _split_node_edge row = Ok row' ->
  row' !! "id" = row !! "id"
  /\ row' !! "fields" = None
  /\ (exists edges, row' !! "edges" = Some (PDict edges))
  /\ exists d props,
       row !! "fields" = Some (PDict d)
       /\ row' !! "props" = Some (PDict props)
       /\ forall k, k ∈ keys props ->
            k ∈ keys d /\ keep_col_cond k = true /\ prop_col_cond k = true.
Proof.
  intros H. destruct (split_node_edge_inv row row' H) as (d & c & Hf & Hc).
  destruct (split_node_edge_ok row d c Hf Hc) as (eps & _ & Hs).
  rewrite Hs in H. injection H as <-.
  assert (L : forall (m : Series) (k : string),
             k <> "createdTime" ->
             (if truthy c then delete "createdTime" else fun r => r) m !! k
             = m !! k).
  { intros m k Hk. destruct (truthy c); [|reflexivity].
    now rewrite lookup_delete_ne. }
  rewrite !L by done. split; [|split; [|split]].
  - rewrite lookup_delete_ne by done. now rewrite !lookup_insert_ne by done.
  - apply lookup_delete_eq.
  - eexists. rewrite lookup_delete_ne by done.
    rewrite lookup_insert_ne by done. apply lookup_insert_eq.
  - eexists d, _. split; [exact Hf|]. split.
    + rewrite lookup_delete_ne by done. apply lookup_insert_eq.
    + intros k Hk. rewrite elem_of_keys_dict_of_pairs in Hk.
      rewrite filter_keys_elem in Hk. destruct Hk as [Hk Hp].
      rewrite elem_of_keys_dict_of_pairs in Hk.
      rewrite filter_keys_elem in Hk. destruct Hk as [Hk Hkeep]. auto.
Qed.

(** C8, as the code has it.  [_split_node_edge] never reads the
    identifier: a row is split whether or not it has an [id] cell and
    whatever the cell holds, into a row with [props] and [edges] and the
    [id] cell as it was, and the transform step of its table goes on to
    the rows after it and returns a frame.  The code has no
    [MalformedRecordError]. *)
Theorem split_ignores_missing_identifier
    (row : Series) (d : dict) (c : pyval) (name : string)
    (before after df1 df2 : DataFrame) :
  row !! "fields" = Some (PDict d) ->
  row !! "createdTime" = Some c ->
  mapM _split_node_edge before = Ok df1 ->
  mapM _split_node_edge after = Ok df2 ->
  exists row' : Series,
    _split_node_edge row = Ok row'
    /\ row' !! "id" = row !! "id"
    /\ (exists props, row' !! "props" = Some (PDict props))
    /\ (exists edges, row' !! "edges" = Some (PDict edges))
    /\ _download_airtable_and_return_as_df (name, before ++ row :: after)
       = Ok (name, df1 ++ row' :: df2).
Proof.
  intros Hf Hc H1 H2.
  destruct (split_node_edge_ok row d c Hf Hc) as (eps & _ & Hs).
  match type of Hs with _ = Ok ?r => set (row' := r) in * end.
  exists row'. split; [exact Hs|].
  destruct (split_node_edge_cells row row' Hs)
    as (Hid' & _ & (edges & He) & (d' & props & _ & Hp & _)).
  split; [exact Hid'|]. split; [eauto|]. split; [eauto|].
  assert (Hall : mapM _split_node_edge (before ++ row :: after)
                 = Ok (df1 ++ row' :: df2)).
  { apply mapM_app; [exact H1|]. cbn [mapM]. now rewrite Hs, H2. }
  unfold _download_airtable_and_return_as_df, apply_rows.
  destruct (before ++ row :: after) as [|r0 rest] eqn:E.
  - now destruct before.
  - now rewrite Hall.
Qed.

(** C8, counterexample: the record without an identifier is split
    without any exception; its [props] and [edges] are those of the
    record with the identifier. *)
Lemma split_without_identifier_returns :
  Sample.anonymous !! "id" = None
  /\ (row' ← _split_node_edge Sample.anonymous; getitem row' "props")
     = Ok (PDict [(PStr "Name", PStr "Ada")])
  /\ (row' ← _split_node_edge Sample.anonymous; getitem row' "edges")
     = Ok (PDict [(PStr "FRIENDS", PList [PStr "rec00000000000002"])]).
Proof. repeat split; vm_compute; reflexivity. Qed.

(** C8, at the frame of two records of which the second has no
    identifier. *)
Lemma split_ignores_missing_identifier_witness :
  exists row' : Series,
    _split_node_edge Fixture.nan_row = Ok row'
    /\ row' !! "id" = Fixture.nan_row !! "id"
    /\ (exists props, row' !! "props" = Some (PDict props))
    /\ (exists edges, row' !! "edges" = Some (PDict edges))
    /\ _download_airtable_and_return_as_df
         ("People", [Sample.ada] ++ Fixture.nan_row :: [])
       = Ok ("People", [Fixture.ada_split] ++ row' :: []).
Proof.
  apply (split_ignores_missing_identifier Fixture.nan_row Sample.ada_fields
           (PStr "2022-03-01T10:00:00.000Z") "People"
           [Sample.ada] [] [Fixture.ada_split] []);
    vm_compute; reflexivity.
Defined.

(** ** The order of the writes *)

Lemma create_nodes_unfold (table : string) (df : DataFrame) :
  create_nodes (table, df)
  = match node_list_of df with
    | Ok node_list =>
        ([Begin; BatchCreateNode table node_list; Commit; Close;
          Begin; CreateConstraintFor table airtable_id_col; Commit; Close],
         Ok tt)
    | Raise e => ([], Raise e)
    end.
Proof. unfold create_nodes. now destruct (node_list_of df). Qed.

Lemma create_edges_unfold (table : string) (df : DataFrame) :
  create_edges (table, df)
  = match table_edges df with
    | Ok edge_list => ([Begin; BatchCreateEdge edge_list; Commit; Close], Ok tt)
    | Raise e => ([], Raise e)
    end.
Proof. unfold create_edges. now destruct (table_edges df). Qed.

Lemma run_unfold (nuke : bool) (src : source) :
  run_airtable_to_neo4j_ingest_job nuke src
  = match mapM _download_airtable_and_return_as_df src with
    | Raise e => ([], Raise e)
    | Ok dfs =>
        let wiped := if nuke then [Wipe] else [] in
        match for_each dfs create_nodes with
        | (tn, Raise e) => (wiped ++ tn, Raise e)
        | (tn, Ok _) =>
            let '(te, r) := for_each dfs create_edges in
            (wiped ++ tn ++ te, r)
        end
    end.
Proof.
  unfold run_airtable_to_neo4j_ingest_job.
  destruct (mapM _ src) as [dfs|e]; [|reflexivity].
  cbn. destruct (for_each dfs create_nodes) as [tn [[]|e]];
    destruct (for_each dfs create_edges) as [te r];
    destruct nuke; cbn; rewrite ?app_nil_r; reflexivity.
Qed.

(** What the node loop sends: no edge batch and no wipe; every node
    batch is the node list of one of the tables; and when the loop ends
    without exception the node batch of every table is there, followed
    by its commit. *)
Lemma node_loop_trace (dfs : list (string * DataFrame))
    (tn : list event) (r : result unit) :
  for_each dfs create_nodes = (tn, r) ->
  (forall e, e ∈ tn -> e <> Wipe /\ forall el, e <> BatchCreateEdge el)
  /\ (forall label nl,
        BatchCreateNode label nl ∈ tn ->
        exists df, (label, df) ∈ dfs /\ node_list_of df = Ok nl)
  /\ (forall u, r = Ok u ->
        forall label df, (label, df) ∈ dfs ->
        exists nl p1 p2,
          node_list_of df = Ok nl
          /\ tn = p1 ++ [BatchCreateNode label nl; Commit] ++ p2).
Proof.
  revert tn r. induction dfs as [|[table df] dfs IH]; intros tn r; cbn [for_each].
  - intros [= <- <-]. split; [|split].
    + now intros e ?%elem_of_nil.
    + now intros label nl ?%elem_of_nil.
    + now intros _ _ label df ?%elem_of_nil.
  - rewrite create_nodes_unfold.
    destruct (node_list_of df) as [nl0|e0] eqn:E; simpl.
    + destruct (for_each dfs create_nodes) as [t' r'] eqn:E'.
      destruct (IH t' r' eq_refl) as (H1 & H2 & H3).
      intros [= <- <-]. split; [|split].
      * intros e He.
        repeat (apply elem_of_cons in He as [->|He];
                [split; [discriminate | intros; discriminate]|]).
        now apply H1.
      * intros label nl He.
        apply elem_of_cons in He as [?|He]; [discriminate|].
        apply elem_of_cons in He as [[= -> ->]|He].
        { exists df. split; [now left | exact E]. }
        repeat (apply elem_of_cons in He as [?|He]; [discriminate|]).
        destruct (H2 label nl He) as (df' & Hin & Hnl).
        exists df'. split; [now right | exact Hnl].
      * intros u Hu label df' Hin.
        apply elem_of_cons in Hin as [[= -> ->]|Hin].
        { exists nl0, [Begin],
            ([Close; Begin; CreateConstraintFor table airtable_id_col;
              Commit; Close] ++ t').
          split; [exact E | reflexivity]. }
        destruct (H3 u Hu label df' Hin) as (nl & p1 & p2 & Hnl & ->).
        exists nl,
          ([Begin; BatchCreateNode table nl0; Commit; Close; Begin;
            CreateConstraintFor table airtable_id_col; Commit; Close] ++ p1),
          p2.
        split; [exact Hnl | reflexivity].
    + intros [= <- <-]. split; [|split].
      * now intros e ?%elem_of_nil.
      * now intros label nl ?%elem_of_nil.
      * discriminate.
Qed.

(** What the edge loop sends: transactions around edge batches only. *)
Lemma edge_loop_trace (dfs : list (string * DataFrame))
    (te : list event) (r : result unit) :
  for_each dfs create_edges = (te, r) ->
  forall e, e ∈ te ->
    e <> Wipe /\ (forall label nl, e <> BatchCreateNode label nl)
    /\ forall label c, e <> CreateConstraintFor label c.
Proof.
  revert te r. induction dfs as [|[table df] dfs IH]; intros te r; cbn [for_each].
  - intros [= <- <-]. now intros e ?%elem_of_nil.
  - rewrite create_edges_unfold.
    destruct (table_edges df) as [el|e0]; simpl.
    + destruct (for_each dfs create_edges) as [t' r'] eqn:E'.
      intros [= <- <-] e He.
      repeat (apply elem_of_cons in He as [->|He];
              [split; [discriminate | split; intros; discriminate]|]).
      exact (IH t' r' eq_refl e He).
    + intros [= <- <-]. now intros e ?%elem_of_nil.
Qed.

(** The frames of the transform step, table by table. *)
Lemma download_all_inv (src : source) (dfs : list (string * DataFrame)) :
  mapM _download_airtable_and_return_as_df src = Ok dfs ->
  Forall2 (fun t tdf =>
             fst tdf = fst t
             /\ apply_rows _split_node_edge (snd t) = Ok (snd tdf))
          src dfs.
Proof.
  intros H%mapM_Ok_inv. induction H as [|[name rows] [name' df] src dfs H _ IH];
    constructor; [|exact IH].
  unfold _download_airtable_and_return_as_df in H.
  destruct (apply_rows _split_node_edge rows) as [df0|e] eqn:E; simpl in H;
    [|discriminate].
  injection H as <- <-. now split.
Qed.

Lemma app_eq_split {A} (l1 l2 pre post : list A) (x : A) :
  l1 ++ l2 = pre ++ x :: post ->
  x ∉ l1 ->
  exists q, pre = l1 ++ q /\ l2 = q ++ x :: post.
Proof.
  revert pre. induction l1 as [|y l1 IH]; intros pre H Hx; simpl in *.
  - now exists pre.
  - apply not_elem_of_cons in Hx as [Hxy Hx].
    destruct pre as [|z pre]; simpl in H.
    + injection H as -> _. now contradiction Hxy.
    + injection H as -> H. destruct (IH pre H Hx) as (q & -> & ->).
      now exists q.
Qed.

Lemma Forall2_elem_of_right {A B} (R : A -> B -> Prop) (l : list A)
    (k : list B) (y : B) :
  Forall2 R l k -> y ∈ k -> exists x, x ∈ l /\ R x y.
Proof.
  induction 1 as [|x y' l k Hxy _ IH]; [now intros ?%elem_of_nil|].
  intros [->|Hy]%elem_of_cons.
  - exists x. split; [now left | exact Hxy].
  - destruct (IH Hy) as (x' & Hx' & HR). exists x'. split; [now right | exact HR].
Qed.

Lemma Forall2_elem_of_left {A B} (R : A -> B -> Prop) (l : list A)
    (k : list B) (x : A) :
  Forall2 R l k -> x ∈ l -> exists y, y ∈ k /\ R x y.
Proof.
  induction 1 as [|x' y l k Hxy _ IH]; [now intros ?%elem_of_nil|].
  intros [->|Hx]%elem_of_cons.
  - exists y. split; [now left | exact Hxy].
  - destruct (IH Hx) as (y' & Hy' & HR). exists y'. split; [now right | exact HR].
Qed.

(** C2.  Whenever the job sends an edge batch, the node batch of every
    table of the source has been sent and committed before it, and no
    node batch follows it. *)
Theorem edges_after_all_nodes
    (nuke : bool) (src : source) (pre post : list event) (el : list pyval) :
  fst (run_airtable_to_neo4j_ingest_job nuke src)
  = pre ++ BatchCreateEdge el :: post ->
  (forall table rows, (table, rows) ∈ src ->
     exists nl p1 p2, pre = p1 ++ [BatchCreateNode table nl; Commit] ++ p2)
  /\ (forall label nl, BatchCreateNode label nl ∉ post).
Proof.
  rewrite run_unfold.
  destruct (mapM _ src) as [dfs|e] eqn:Ed; simpl.
  2:{ intros H. now destruct pre. }
  destruct (for_each dfs create_nodes) as [tn rn] eqn:En.
  destruct (node_loop_trace dfs tn rn En) as (H1 & _ & H3).
  assert (Hw : BatchCreateEdge el ∉ (if nuke then [Wipe] else []) ++ tn).
  { intros [Hin|Hin]%elem_of_app.
    - destruct nuke; [|now apply elem_of_nil in Hin].
      apply list_elem_of_singleton in Hin. discriminate.
    - destruct (H1 _ Hin) as [_ N]. now apply (N el). }
  destruct rn as [u|e]; simpl.
  2:{ intros H. exfalso. apply Hw. rewrite H. apply elem_of_app. right. now left. }
  destruct (for_each dfs create_edges) as [te r] eqn:Ee. simpl.
  rewrite app_assoc. intros H.
  destruct (app_eq_split _ _ _ _ _ H Hw) as (q & -> & Hte).
  split.
  - intros table rows Hin.
    destruct (Forall2_elem_of_left _ _ _ _ (download_all_inv src dfs Ed) Hin)
      as ([table' df] & Hdf & Htab & _). simpl in Htab. subst table'.
    destruct (H3 u eq_refl table df Hdf) as (nl & p1 & p2 & _ & ->).
    exists nl, ((if nuke then [Wipe] else []) ++ p1), (p2 ++ q).
    now rewrite <- !app_assoc.
  - intros label nl Hin.
    assert (Hin' : BatchCreateNode label nl ∈ te).
    { rewrite Hte. apply elem_of_app. right. now right. }
    destruct (edge_loop_trace dfs te r Ee _ Hin') as (_ & N & _).
    now apply (N label nl).
Qed.

(** C2, at the sample source. *)
Lemma edges_after_all_nodes_witness :
  (forall table rows, (table, rows) ∈ Sample.people ->
     exists nl p1 p2,
       Sample.people_before_edges
       = p1 ++ [BatchCreateNode table nl; Commit] ++ p2)
  /\ (forall label nl, BatchCreateNode label nl ∉ [Commit; Close]).
Proof.
  apply (edges_after_all_nodes false Sample.people Sample.people_before_edges
           [Commit; Close] Sample.people_edge_list).
  vm_compute. reflexivity.
Defined.

(** C3: the order the code has.  For every table the loop sends the
    node batch in a first transaction and declares the uniqueness
    constraint in a second one, after the merge; the run on the sample
    source shows the whole sequence. *)
Theorem node_merge_precedes_constraint (table : string) (df : DataFrame) :
  create_nodes (table, df)
  = match node_list_of df with
    | Ok node_list =>
        ([Begin; BatchCreateNode table node_list; Commit; Close;
          Begin; CreateConstraintFor table airtable_id_col; Commit; Close],
         Ok tt)
    | Raise e => ([], Raise e)
    end
  /\ run_airtable_to_neo4j_ingest_job false Sample.people
     = (Sample.people_before_edges
          ++ [BatchCreateEdge Sample.people_edge_list; Commit; Close],
        Ok tt).
Proof. split; [apply create_nodes_unfold | vm_compute; reflexivity]. Qed.

(** C9: what the code does on a table without rows.  [apply] hands the
    empty frame back instead of a series, [to_list] is missing on it,
    and the job ends with [AttributeError] before any node batch is
    sent for the table; so does every run whose source has such a
    table. *)
Theorem empty_table_raises (nuke : bool) (name : string) :
  node_list_of [] = Raise (AttributeError "to_list")
  /\ run_airtable_to_neo4j_ingest_job nuke [(name, [])]
     = ((if nuke then [Wipe] else []), Raise (AttributeError "to_list"))
  /\ (forall src : source,
        (name, []) ∈ src ->
        exists e, snd (run_airtable_to_neo4j_ingest_job nuke src) = Raise e).
Proof.
  split; [reflexivity|]. split; [now destruct nuke|].
  intros src Hin. rewrite run_unfold.
  destruct (mapM _ src) as [dfs|e] eqn:Ed; simpl; [|eauto].
  destruct (Forall2_elem_of_left _ _ _ _ (download_all_inv src dfs Ed) Hin)
    as ([name' df] & Hdf & Hname & Hrows). simpl in Hname, Hrows.
  injection Hrows as <-. subst name'.
  destruct (for_each dfs create_nodes) as [tn rn] eqn:En.
  destruct (node_loop_trace dfs tn rn En) as (_ & _ & H3).
  destruct rn as [u|e]; simpl; [|eauto].
  destruct (H3 u eq_refl name [] Hdf) as (nl & _ & _ & Hnl & _).
  discriminate.
Qed.

(** ** The identifier key of a node *)

Lemma apply_rows_mapM (f : Series -> result Series) (rows df : DataFrame) :
  apply_rows f rows = Ok df -> mapM f rows = Ok df.
Proof.
  destruct rows as [|row rows]; [|tauto].
  unfold apply_rows. now destruct (f ∅).
Qed.

Lemma node_list_of_mapM (df : DataFrame) (nl : list pyval) :
  node_list_of df = Ok nl -> mapM make_node_list df = Ok nl.
Proof.
  destruct df as [|row df]; [discriminate|].
  unfold node_list_of, apply_values.
  now destruct (mapM make_node_list (row :: df)).
Qed.

(** The node of a split row: its [props] with the identifier added at
    the end under [_aid], a key no property column can have. *)
Lemma make_node_list_after_split (row row' : Series) (node : pyval) :
  _split_node_edge row = Ok row' ->
  make_node_list row' = Ok node ->
  exists props id,
    row !! "id" = Some id
    /\ row' !! "props" = Some (PDict props)
    /\ (forall k, k ∈ keys props -> classify k = Property)
    /\ (PStr airtable_id_col ∉ keys props)
    /\ node = PDict (props ++ [(PStr airtable_id_col, id)]).
Proof.
  intros Hs Hm.
  destruct (split_node_edge_cells row row' Hs)
    as (Hid & _ & _ & (d & props & _ & Hp & Hk)).
  unfold make_node_list, getitem in Hm. rewrite Hp, Hid in Hm. simpl in Hm.
  destruct (row !! "id") as [id|] eqn:Eid; simpl in Hm; [|discriminate].
  assert (Hc : forall k, k ∈ keys props -> classify k = Property).
  { intros k Hin. destruct (Hk k Hin) as (_ & Hkeep & Hprop).
    apply classify_Property. split; [exact Hkeep|].
    rewrite (prop_col_cond_kept k Hkeep) in Hprop.
    now apply negb_true_iff in Hprop. }
  assert (Hfresh : PStr airtable_id_col ∉ keys props).
  { intros Hin. specialize (Hc _ Hin). discriminate. }
  exists props, id. repeat split; try assumption.
  injection Hm as <-. now rewrite dict_set_fresh.
Qed.

(** C10.  Every entry of every node batch the job sends comes from a
    row of the batch's table, in order: it is the row's [props], whose
    keys are all property columns and so never [_aid], with the row's
    identifier stored under [_aid]. *)
Theorem aid_is_row_identifier
    (nuke : bool) (src : source) (label : string) (nl : list pyval) :
  BatchCreateNode label nl ∈ fst (run_airtable_to_neo4j_ingest_job nuke src) ->
  exists rows,
    (label, rows) ∈ src
    /\ Forall2
         (fun row node =>
            exists props id,
              row !! "id" = Some id
              /\ (row' ← _split_node_edge row; getitem row' "props")
                 = Ok (PDict props)
              /\ (forall k, k ∈ keys props -> classify k = Property)
              /\ classify (PStr airtable_id_col) = Ignored
              /\ (PStr airtable_id_col ∉ keys props)
              /\ node = PDict (props ++ [(PStr airtable_id_col, id)])
              /\ dict_get (props ++ [(PStr airtable_id_col, id)])
                          (PStr airtable_id_col) = Some id)
         rows nl.
Proof.
  rewrite run_unfold.
  destruct (mapM _ src) as [dfs|e] eqn:Ed; simpl; [|now intros ?%elem_of_nil].
  destruct (for_each dfs create_nodes) as [tn rn] eqn:En.
  destruct (node_loop_trace dfs tn rn En) as (_ & H2 & _).
  assert (Hnode : BatchCreateNode label nl ∈ tn ->
                  exists rows, (label, rows) ∈ src
                    /\ exists df, mapM _split_node_edge rows = Ok df
                                  /\ mapM make_node_list df = Ok nl).
  { intros Hin. destruct (H2 label nl Hin) as (df & Hdf & Hnl).
    destruct (Forall2_elem_of_right _ _ _ _ (download_all_inv src dfs Ed) Hdf)
      as ([label' rows] & Hrows & Hl & Happ). simpl in Hl, Happ. subst label'.
    exists rows. split; [exact Hrows|]. exists df.
    split; [now apply apply_rows_mapM | now apply node_list_of_mapM]. }
  assert (Hin : BatchCreateNode label nl
                  ∈ fst (match rn with
                         | Ok _ =>
                             let '(te, r) := for_each dfs create_edges in
                             ((if nuke then [Wipe] else []) ++ tn ++ te, r)
                         | Raise e => ((if nuke then [Wipe] else []) ++ tn, Raise e)
                         end) ->
                BatchCreateNode label nl ∈ tn).
  { destruct rn as [u|e]; simpl.
    - destruct (for_each dfs create_edges) as [te r] eqn:Ee. simpl.
      rewrite !elem_of_app. intros [Hw|[Ht|He]]; [|exact Ht|].
      + destruct nuke; [|now apply elem_of_nil in Hw].
        apply list_elem_of_singleton in Hw. discriminate.
      + destruct (edge_loop_trace dfs te r Ee _ He) as (_ & N & _).
        now contradiction (N label nl).
    - rewrite elem_of_app. intros [Hw|Ht]; [|exact Ht].
      destruct nuke; [|now apply elem_of_nil in Hw].
      apply list_elem_of_singleton in Hw. discriminate. }
  intros H. destruct (Hnode (Hin H)) as (rows & Hrows & df & Hsplit & Hmk).
  exists rows. split; [exact Hrows|].
  apply mapM_Ok_inv in Hsplit, Hmk. clear -Hsplit Hmk.
  revert nl Hmk. induction Hsplit as [|row row' rows df Hs _ IH]; intros nl Hmk.
  - inversion Hmk. constructor.
  - inversion Hmk as [|? node ? nl' Hm Hmk']; subst. constructor; [|now apply IH].
    destruct (make_node_list_after_split row row' node Hs Hm)
      as (props & id & Hid & Hp & Hc & Hfresh & ->).
    exists props, id. repeat split; try assumption.
    + rewrite Hs. simpl. unfold getitem. now rewrite Hp.
    + rewrite <- (dict_set_fresh props _ id Hfresh). apply dict_get_set_eq.
Qed.

(** C10, at the sample source. *)
Lemma aid_is_row_identifier_witness :
  exists rows,
    (("People" : string), rows) ∈ Sample.people
    /\ Forall2
         (fun row node =>
            exists props id,
              row !! "id" = Some id
              /\ (row' ← _split_node_edge row; getitem row' "props")
                 = Ok (PDict props)
              /\ (forall k, k ∈ keys props -> classify k = Property)
              /\ classify (PStr airtable_id_col) = Ignored
              /\ (PStr airtable_id_col ∉ keys props)
              /\ node = PDict (props ++ [(PStr airtable_id_col, id)])
              /\ dict_get (props ++ [(PStr airtable_id_col, id)])
                          (PStr airtable_id_col) = Some id)
         rows
         [PDict [(PStr "Name", PStr "Ada");
                 (PStr "_aid", PStr "rec00000000000001")]].
Proof.
  apply (aid_is_row_identifier false Sample.people "People").
  vm_compute. right. left.
Defined.

(** ** Running the job twice *)

Section reingest.
Import Neo4j.

Lemma included_refl (s : store) : included s s.
Proof. unfold included. set_solver. Qed.

Lemma included_trans (s1 s2 s3 : store) :
  included s1 s2 -> included s2 s3 -> included s1 s3.
Proof. unfold included. set_solver. Qed.

Lemma same_shape_included (s s' : store) : same_shape s' s -> included s s'.
Proof. unfold same_shape, included. intros (-> & -> & ->). set_solver. Qed.

Lemma same_shape_trans (s1 s2 s3 : store) :
  same_shape s1 s2 -> same_shape s2 s3 -> same_shape s1 s3.
Proof. unfold same_shape. intros (-> & -> & ->) (-> & -> & ->). auto. Qed.

Lemma has_node_mono (id : pyval) (s s' : store) :
  included s s' -> has_node id s -> has_node id s'.
Proof.
  intros (Hn & _) (k & Hk & Hid). exists k. split; [|exact Hid]. set_solver.
Qed.

Lemma ensure_node_included (id : pyval) (s : store) :
  included s (ensure_node id s).
Proof.
  unfold ensure_node. destruct (decide (has_node id s)); [apply included_refl|].
  unfold included. simpl. rewrite dom_insert_L. set_solver.
Qed.

Lemma ensure_node_has (id : pyval) (s : store) :
  has_node id (ensure_node id s).
Proof.
  unfold ensure_node. destruct (decide (has_node id s)) as [H|_]; [exact H|].
  exists (None, id). split; [|reflexivity].
  simpl. rewrite dom_insert_L. set_solver.
Qed.

Lemma ensure_node_absorbed (id : pyval) (s : store) :
  has_node id s -> ensure_node id s = s.
Proof. intros H. unfold ensure_node. now rewrite decide_True. Qed.

Lemma exec_write_included (w : write) (s : store) :
  w <> DeleteAll -> included s (exec_write w s).
Proof.
  destruct w as [label node|edge|label property|]; simpl; [| | |congruence];
    intros _.
  - unfold merge_node. destruct node; try apply included_refl.
    destruct (dict_get d _); [|apply included_refl].
    unfold included. simpl. rewrite dom_insert_L. set_solver.
  - unfold merge_edge. destruct edge; try apply included_refl.
    destruct (dict_get d (PStr edge_source)) as [a|]; [|apply included_refl].
    destruct (dict_get d (PStr edge_target)) as [b|]; [|apply included_refl].
    destruct (dict_get d (PStr edge_label)) as [l|]; [|apply included_refl].
    eapply included_trans; [apply (ensure_node_included a)|].
    eapply included_trans; [apply (ensure_node_included b)|].
    unfold included. simpl. set_solver.
  - unfold declare_constraint, included. simpl. set_solver.
Qed.

Lemma exec_write_absorbed (w : write) (s : store) :
  w <> DeleteAll -> absorbed w (exec_write w s).
Proof.
  destruct w as [label node|edge|label property|]; simpl; [| | |congruence];
    intros _.
  - unfold merge_node. destruct node; try exact I.
    destruct (dict_get d _); [|exact I].
    simpl. rewrite dom_insert_L. set_solver.
  - unfold merge_edge. destruct edge; try exact I.
    destruct (dict_get d (PStr edge_source)) as [a|]; [|exact I].
    destruct (dict_get d (PStr edge_target)) as [b|]; [|exact I].
    destruct (dict_get d (PStr edge_label)) as [l|]; [|exact I].
    split; [|split].
    + apply (has_node_mono a (ensure_node a s)).
      * eapply included_trans; [apply (ensure_node_included b)|].
        unfold included. simpl. set_solver.
      * apply ensure_node_has.
    + apply (has_node_mono b (ensure_node b (ensure_node a s))).
      * unfold included. simpl. set_solver.
      * apply ensure_node_has.
    + simpl. set_solver.
  - unfold declare_constraint. simpl. set_solver.
Qed.

Lemma absorbed_mono (w : write) (s s' : store) :
  included s s' -> absorbed w s -> absorbed w s'.
Proof.
  intros Hi. pose proof Hi as (Hn & He & Hc).
  destruct w as [label node|edge|label property|]; simpl; [| | |tauto].
  - destruct node; try tauto. destruct (dict_get d _); [|tauto]. set_solver.
  - destruct edge; try tauto.
    destruct (dict_get d (PStr edge_source)) as [a|]; [|tauto].
    destruct (dict_get d (PStr edge_target)) as [b|]; [|tauto].
    destruct (dict_get d (PStr edge_label)) as [l|]; [|tauto].
    intros (Ha & Hb & Hin). split; [|split].
    + now apply (has_node_mono a s).
    + now apply (has_node_mono b s).
    + set_solver.
  - set_solver.
Qed.

(** A write the store has absorbed adds no node key, no relationship
    and no constraint. *)
Lemma absorbed_same_shape (w : write) (s : store) :
  absorbed w s -> same_shape (exec_write w s) s.
Proof.
  destruct w as [label node|edge|label property|]; simpl; [| | |tauto].
  - unfold merge_node. destruct node; try (intros _; now unfold same_shape).
    destruct (dict_get d _); [|intros _; now unfold same_shape].
    intros H. unfold same_shape. simpl. rewrite dom_insert_L.
    split; [set_solver | tauto].
  - unfold merge_edge. destruct edge; try (intros _; now unfold same_shape).
    destruct (dict_get d (PStr edge_source)) as [a|];
      [|intros _; now unfold same_shape].
    destruct (dict_get d (PStr edge_target)) as [b|];
      [|intros _; now unfold same_shape].
    destruct (dict_get d (PStr edge_label)) as [l|];
      [|intros _; now unfold same_shape].
    intros (Ha & Hb & Hin).
    rewrite (ensure_node_absorbed a s Ha), (ensure_node_absorbed b s Hb).
    unfold same_shape. simpl. split; [reflexivity|]. split; [set_solver|reflexivity].
  - intros H. unfold declare_constraint, same_shape. simpl.
    split; [reflexivity|]. split; [reflexivity | set_solver].
Qed.

(** After a run without [DeleteAll] the store has absorbed every write
    of the run. *)
Lemma exec_writes_absorbed (ws : list write) (s : store) :
  Forall (fun w => w <> DeleteAll) ws ->
  included s (exec_writes ws s)
  /\ Forall (fun w => absorbed w (exec_writes ws s)) ws.
Proof.
  revert s. induction ws as [|w ws IH]; intros s Hws; simpl.
  - split; [apply included_refl | constructor].
  - apply Forall_cons in Hws as [Hw Hws].
    destruct (IH (exec_write w s) Hws) as [Hi Ha].
    split.
    + eapply included_trans; [apply exec_write_included, Hw | exact Hi].
    + constructor; [|exact Ha].
      eapply absorbed_mono; [exact Hi | apply exec_write_absorbed, Hw].
Qed.

(** Writes the store has absorbed leave its shape as it is. *)
Lemma exec_writes_same_shape (ws : list write) (s : store) :
  Forall (fun w => absorbed w s) ws -> same_shape (exec_writes ws s) s.
Proof.
  revert s. induction ws as [|w ws IH]; intros s Hws; simpl.
  - now unfold same_shape.
  - apply Forall_cons in Hws as [Hw Hws].
    pose proof (absorbed_same_shape w s Hw) as Hsame.
    eapply same_shape_trans; [|exact Hsame]. apply IH.
    eapply Forall_impl; [exact Hws|]. intros w' Hw'.
    eapply absorbed_mono; [|exact Hw']. now apply same_shape_included.
Qed.

(** Without [nuke] the job never wipes the store. *)
Lemma run_without_nuke_never_wipes (src : source) :
  Forall (fun w => w <> DeleteAll)
         (flat_map writes_of (fst (run_airtable_to_neo4j_ingest_job false src))).
Proof.
  assert (H : forall e, e ∈ fst (run_airtable_to_neo4j_ingest_job false src) ->
                        e <> Wipe).
  { rewrite run_unfold. destruct (mapM _ src) as [dfs|e0]; simpl;
      [|now intros e ?%elem_of_nil].
    destruct (for_each dfs create_nodes) as [tn rn] eqn:En.
    destruct (node_loop_trace dfs tn rn En) as (H1 & _ & _).
    destruct rn as [u|e0]; simpl; [|intros e He; now apply H1].
    destruct (for_each dfs create_edges) as [te r] eqn:Ee. simpl.
    intros e [He|He]%elem_of_app; [now apply H1|].
    now apply (edge_loop_trace dfs te r Ee). }
  apply Forall_forall. intros w Hw.
  apply list_elem_of_In, in_flat_map in Hw as (e & He & Hw).
  apply list_elem_of_In in He. specialize (H e He).
  destruct e; simpl in Hw; try tauto.
  - apply in_map_iff in Hw as (? & <- & _). discriminate.
  - destruct Hw as [<-|[]]. discriminate.
  - apply in_map_iff in Hw as (? & <- & _). discriminate.
Qed.

End reingest.

(** C1.  Against the store modelled above, running the job a second
    time without [nuke], on the same source, on the store the first run
    left, adds nothing: the node keys (label and identifier), the
    relationships (source, target, label) and the declared constraints
    are those of the first run, and so are the node and edge counts.
    For the sample source, two runs from the empty store leave one
    [People] node, with [Name] Ada, and one [FRIENDS] relationship. *)
Theorem reingest_is_idempotent (src : source) (s : Neo4j.store) :
  let trace := fst (run_airtable_to_neo4j_ingest_job false src) in
  let once := Neo4j.exec trace s in
  let twice := Neo4j.exec trace once in
  Neo4j.node_count twice = Neo4j.node_count once
  /\ Neo4j.edge_count twice = Neo4j.edge_count once
  /\ Neo4j.same_shape twice once
  /\ (let people := fst (run_airtable_to_neo4j_ingest_job false Sample.people) in
      let twice := Neo4j.exec people (Neo4j.exec people Neo4j.empty) in
      map_to_list (Neo4j.labelled "People" twice)
      = [((Some "People", PStr "rec00000000000001"),
          [(PStr "Name", PStr "Ada"); (PStr "_aid", PStr "rec00000000000001")])]
      /\ elements (Neo4j.edges twice)
         = [(PStr "rec00000000000001", PStr "rec00000000000002", PStr "FRIENDS")]).
Proof.
  intros trace once twice.
  assert (Hsame : Neo4j.same_shape twice once).
  { unfold twice, Neo4j.exec. apply exec_writes_same_shape.
    apply (exec_writes_absorbed _ s), run_without_nuke_never_wipes. }
  split; [|split; [|split; [exact Hsame|]]].
  - unfold Neo4j.node_count. rewrite <- !size_dom.
    destruct Hsame as (Hn & _). now rewrite Hn.
  - unfold Neo4j.edge_count. destruct Hsame as (_ & He & _). now rewrite He.
  - split; vm_compute; reflexivity.
Qed.

(** C4, at the sample record. *)
Lemma split_node_edge_partition_witness :
  exists (row' : Series) (props edges : dict),
    _split_node_edge Sample.ada = Ok row'
    /\ row' !! "props" = Some (PDict props)
    /\ row' !! "edges" = Some (PDict edges)
    /\ let sources :=
         edge_source_columns
           (List.filter (fun kv => keep_col_cond (fst kv)) Sample.ada_fields) in
       keys props ++ sources
         ≡ₚ List.filter (fun k => bool_decide (classify k <> Ignored))
              (keys Sample.ada_fields)
       /\ NoDup (keys props ++ sources)
       /\ (forall k, ~ (k ∈ keys props /\ k ∈ sources))
       /\ (forall l, l ∈ keys edges
                     <-> exists k, k ∈ sources /\ format_edge_col k = Ok l).
Proof.
  apply (split_node_edge_partition Sample.ada Sample.ada_fields
           (PStr "2022-03-01T10:00:00.000Z")).
  - vm_compute. reflexivity.
  - apply (bool_decide_unpack _). vm_compute. exact I.
  - vm_compute. reflexivity.
Defined.

(** * More of the code *)

(** ** The record identifier test *)

Lemma startswith_rec (s : string) :
  startswith "rec" s = true <-> exists t, s = "rec" +:+ t.
Proof.
  split.
  - destruct s as [|a [|b [|c t]]]; cbn [startswith];
      rewrite ?andb_false_r; try discriminate.
    rewrite andb_true_r, !andb_true_iff. intros (Ha & Hb & Hc).
    apply Ascii.eqb_eq in Ha, Hb, Hc. subst. now exists t.
  - intros (t & ->). reflexivity.
Qed.

Lemma decode_rec (t : string) :
  decode ("rec" +:+ t) = [114; 101; 99]%N ++ decode t.
Proof. reflexivity. Qed.

Lemma rec_is_alnum : forallb is_alnum [114; 101; 99]%N = true.
Proof. vm_compute. reflexivity. Qed.

(** X1.  On a string [is_airtable_record_id] never raises, and it
    answers [True] exactly for [rec] followed by fourteen characters
    that are all alphanumeric, in the sense of [str.isalnum] over the
    whole of Unicode; the length counts characters, not bytes. *)
Theorem record_id_of_string (s : string) :
  (exists b, is_airtable_record_id (PStr s) = Ok b)
  /\ (is_airtable_record_id (PStr s) = Ok true
      <-> exists t, s = "rec" +:+ t
                    /\ length (decode t) = 14
                    /\ forallb is_alnum (decode t) = true).
Proof.
  assert (E : is_airtable_record_id (PStr s)
              = Ok (str_isalnum s && (Nat.eqb (length (decode s)) 17
                                      && (startswith "rec" s && true))))
    by reflexivity.
  rewrite E. split; [eauto|]. split.
  - intros [= H]. apply andb_true_iff in H as [Ha H].
    apply andb_true_iff in H as [Hn H]. rewrite andb_true_r in H.
    apply startswith_rec in H as (t & ->). exists t. split; [reflexivity|].
    apply Nat.eqb_eq in Hn. unfold str_isalnum in Ha.
    rewrite decode_rec in Hn, Ha. rewrite length_app in Hn.
    cbn [app] in Ha. rewrite <- (app_nil_l (_ :: _ :: _ :: decode t)) in Ha.
    change ([] ++ 114%N :: 101%N :: 99%N :: decode t)
      with ([114; 101; 99]%N ++ decode t) in Ha.
    rewrite forallb_app, rec_is_alnum in Ha.
    split; [simpl in Hn; lia | exact Ha].
  - intros (t & -> & Hlen & Ha). f_equal.
    unfold str_isalnum. rewrite decode_rec, length_app, Hlen.
    cbn [app]. rewrite <- (app_nil_l (_ :: _ :: _ :: decode t)).
    change ([] ++ 114%N :: 101%N :: 99%N :: decode t)
      with ([114; 101; 99]%N ++ decode t).
    rewrite forallb_app, rec_is_alnum, Ha. reflexivity.
Qed.

(** X2.  On a value that is not a string the test does not answer
    [False]: the [isinstance] test is no guard, [record.isalnum()] runs
    all the same and raises [AttributeError]. *)
Theorem record_id_of_non_string (record : pyval) :
  (forall s, record <> PStr s) ->
  is_airtable_record_id record = Raise (AttributeError "isalnum").
Proof. intros H. destruct record; try reflexivity. now contradiction (H s). Qed.

(** X2, at the number 17. *)
Lemma record_id_of_non_string_witness :
  is_airtable_record_id (PInt 17) = Raise (AttributeError "isalnum").
Proof. apply (record_id_of_non_string (PInt 17)). discriminate. Defined.

(** ** The edge label, again *)

Lemma startswith_app (sep s rest : string) :
  startswith sep s = true -> startswith sep (s +:+ rest) = true.
Proof.
  revert s. induction sep as [|p sep IH]; intros s; [reflexivity|].
  destruct s as [|c s]; simpl; [discriminate|].
  change (String c s +:+ rest) with (String c (s +:+ rest)). simpl.
  intros [-> H]%andb_true_iff. now rewrite (IH s H).
Qed.

Lemma append_assoc (a b c : string) : (a +:+ b) +:+ c = a +:+ (b +:+ c).
Proof.
  induction a as [|x a IH]; [reflexivity|].
  change (String x ((a +:+ b) +:+ c) = String x (a +:+ (b +:+ c))).
  now rewrite IH.
Qed.

(** A string in which the separator starts nowhere is its own first
    piece. *)
Lemma split_from_no_separator (sep s : string) :
  (forall pre post, s = pre +:+ post -> startswith sep post = false) ->
  fst (split_from sep 0 s) = s.
Proof.
  induction s as [|c s IH]; intros H; [reflexivity|].
  simpl. rewrite (H "" (String c s) eq_refl).
  destruct (split_from sep 0 s) as [p ps] eqn:E. simpl in *.
  f_equal. apply IH. intros pre post ->. apply (H (String c pre) post).
  reflexivity.
Qed.

(** X3.  The label [format_edge_col] returns holds no double
    underscore, so formatting a label again changes nothing; and a value
    that is not a string has no label. *)
Theorem format_edge_col_idempotent (col label : pyval) :
  format_edge_col col = Ok label ->
  format_edge_col label = Ok label
  /\ exists s l, col = PStr s /\ label = PStr l
       /\ forall pre post, l = pre +:+ post -> startswith "__" post = false.
Proof.
  destruct col as [| | |s| | |]; try discriminate.
  rewrite format_edge_col_str. intros [= <-].
  destruct (split_from_first "__" s) as (rest & Hs & _ & Hfirst).
  set (l := fst (split_from "__" 0 s)) in *.
  assert (Hno : forall pre post, l = pre +:+ post -> startswith "__" post = false).
  { intros pre post Hl.
    destruct post as [|c post]; [reflexivity|].
    destruct (startswith "__" (String c post)) eqn:E; [|reflexivity].
    apply (startswith_app _ _ rest) in E.
    rewrite (Hfirst pre (String c post +:+ rest)) in E; [discriminate| |].
    - rewrite Hs at 1. rewrite Hl. apply append_assoc.
    - rewrite Hl. clear. induction pre as [|x pre IH]; simpl; [lia|].
      change (String x pre +:+ String c post) with (String x (pre +:+ String c post)).
      simpl. lia. }
  split.
  - rewrite format_edge_col_str. now rewrite split_from_no_separator.
  - exists s, l. auto.
Qed.

(** X3, at the column [KNOWS__A]. *)
Lemma format_edge_col_idempotent_witness :
  format_edge_col (PStr "KNOWS") = Ok (PStr "KNOWS")
  /\ exists s l, PStr "KNOWS__A" = PStr s /\ PStr "KNOWS" = PStr l
       /\ forall pre post, l = pre +:+ post -> startswith "__" post = false.
Proof.
  apply (format_edge_col_idempotent (PStr "KNOWS__A") (PStr "KNOWS")).
  reflexivity.
Defined.

(** ** Splitting a row, again *)

Lemma split_node_edge_no_created (row : Series) (d : dict) :
  row !! "fields" = Some (PDict d) ->
  row !! "createdTime" = None ->
  _split_node_edge row = Raise (KeyError "createdTime").
Proof.
  intros Hf Hc. unfold _split_node_edge, getitem. rewrite Hf. simpl.
  rewrite lookup_insert_eq. simpl.
  destruct (edge_pairs_ok
              (dict_of_pairs (List.filter (fun kv => keep_col_cond (fst kv)) d)))
    as (eps & -> & _). simpl.
  rewrite lookup_insert_ne by done. rewrite lookup_insert_eq. simpl.
  rewrite lookup_delete_ne by done.
  rewrite !lookup_insert_ne by done. now rewrite Hc.
Qed.

(** X4.  What [_split_node_edge] does with a row, by its cells: without
    [fields] it raises [KeyError]; with a [fields] cell that is no
    dictionary it raises [AttributeError], whether or not [createdTime]
    is there; with a dictionary and no [createdTime] it raises
    [KeyError] for that cell; and with both it returns. *)
Theorem split_node_edge_outcome (row : Series) :
  match row !! "fields", row !! "createdTime" with
  | None, _ => _split_node_edge row = Raise (KeyError "fields")
  | Some (PDict _), None =>
      _split_node_edge row = Raise (KeyError "createdTime")
  | Some (PDict _), Some _ => exists row', _split_node_edge row = Ok row'
  | Some _, _ => _split_node_edge row = Raise (AttributeError "items")
  end.
Proof.
  destruct (row !! "fields") as [f|] eqn:Hf.
  - destruct f as [| | | | |d|];
      try (destruct (row !! "createdTime");
           unfold _split_node_edge, getitem; rewrite Hf; reflexivity).
    destruct (row !! "createdTime") as [c|] eqn:Hc.
    + destruct (split_node_edge_ok row d c Hf Hc) as (eps & _ & Hs). eauto.
    + now apply (split_node_edge_no_created row d).
  - unfold _split_node_edge, getitem. now rewrite Hf.
Qed.

(** X5.  A split row keeps every cell but four as it was: [fields] is
    gone, [edges] and [props] are new, and [createdTime] is removed only
    when its value is true for Python; an empty or null [createdTime]
    stays in the row. *)
Theorem split_node_edge_frame (row row' : Series) :
  _split_node_edge row = Ok row' ->
  (forall k : string,
     k <> "fields" -> k <> "edges" -> k <> "props" -> k <> "createdTime" ->
     row' !! k = row !! k)
  /\ row' !! "fields" = None
  /\ exists c, row !! "createdTime" = Some c
               /\ row' !! "createdTime" = if truthy c then None else Some c.
Proof.
  intros H. destruct (split_node_edge_inv row row' H) as (d & c & Hf & Hc).
  destruct (split_node_edge_ok row d c Hf Hc) as (eps & _ & Hs).
  rewrite Hs in H. injection H as <-. split; [|split].
  - intros k H1 H2 H3 H4.
    destruct (truthy c); [rewrite lookup_delete_ne by congruence|];
      rewrite lookup_delete_ne by congruence;
      now rewrite !lookup_insert_ne by congruence.
  - destruct (truthy c); [rewrite lookup_delete_ne by done|];
      apply lookup_delete_eq.
  - exists c. split; [exact Hc|]. destruct (truthy c).
    + apply lookup_delete_eq.
    + rewrite lookup_delete_ne by done. now rewrite !lookup_insert_ne by done.
Qed.

(** X5, at the sample record. *)
Lemma split_node_edge_frame_witness :
  (forall k : string,
     k <> "fields" -> k <> "edges" -> k <> "props" -> k <> "createdTime" ->
     Fixture.ada_split !! k = Sample.ada !! k)
  /\ Fixture.ada_split !! "fields" = None
  /\ exists c, Sample.ada !! "createdTime" = Some c
               /\ Fixture.ada_split !! "createdTime"
                  = if truthy c then None else Some c.
Proof.
  apply (split_node_edge_frame Sample.ada Fixture.ada_split).
  vm_compute. reflexivity.
Defined.

(** X7.  [_split_node_edge] uses its row up: run on a row it has
    returned, it raises [KeyError] for the [fields] cell it removed. *)
Theorem split_node_edge_not_reentrant (row row' : Series) :
  _split_node_edge row = Ok row' ->
  _split_node_edge row' = Raise (KeyError "fields").
Proof.
  intros H. destruct (split_node_edge_cells row row' H) as (_ & Hf & _).
  unfold _split_node_edge, getitem. now rewrite Hf.
Qed.

(** X7, at the sample record. *)
Lemma split_node_edge_not_reentrant_witness :
  _split_node_edge Fixture.ada_split = Raise (KeyError "fields").
Proof.
  apply (split_node_edge_not_reentrant Sample.ada Fixture.ada_split).
  vm_compute. reflexivity.
Defined.

Lemma dict_get_set (d : dict) (k' v k : pyval) :
  dict_get (dict_set d k' v) k
  = if decide (k' = k) then Some v else dict_get d k.
Proof.
  induction d as [|[k0 v0] d IH]; simpl.
  - reflexivity.
  - destruct (decide (k0 = k')) as [->|N]; simpl.
    + now destruct (decide (k' = k)).
    + rewrite IH. destruct (decide (k0 = k)) as [->|N'].
      * now rewrite decide_False by congruence.
      * reflexivity.
Qed.

Lemma dict_get_filter (f : pyval -> bool) (d : dict) (k : pyval) :
  dict_get (List.filter (fun kv => f (fst kv)) d) k
  = if f k then dict_get d k else None.
Proof.
  induction d as [|[k0 v0] d IH]; simpl; [now destruct (f k)|].
  destruct (f k0) eqn:E0; simpl; rewrite IH.
  - destruct (decide (k0 = k)) as [->|N]; [now rewrite E0 | reflexivity].
  - destruct (decide (k0 = k)) as [->|N]; [now rewrite E0 | reflexivity].
Qed.

Lemma find_snoc {A} (p : A -> bool) (l : list A) (x : A) :
  List.find p (l ++ [x])
  = match List.find p l with
    | Some y => Some y
    | None => if p x then Some x else None
    end.
Proof.
  induction l as [|y l IH]; simpl; [reflexivity|]. now destruct (p y).
Qed.

Lemma find_filter {A} (p q : A -> bool) (l : list A) :
  List.find p (List.filter q l) = List.find (fun x => q x && p x) l.
Proof.
  induction l as [|y l IH]; simpl; [reflexivity|].
  destruct (q y); simpl; [|exact IH]. now destruct (p y).
Qed.

(** Of the columns stored under one label the last one keeps its value. *)
Lemma edges_get_last (l : dict) (eps : list (pyval * pyval)) (k : pyval) :
  Forall2 (fun kv ep => format_edge_col (fst kv) = Ok (fst ep)
                        /\ snd ep = snd kv) l eps ->
  forall acc : dict,
    dict_get (fold_left (fun d kv => dict_set d (fst kv) (snd kv)) eps acc) k
    = match List.find (fun kv => bool_decide (format_edge_col (fst kv) = Ok k))
                      (rev l) with
      | Some kv => Some (snd kv)
      | None => dict_get acc k
      end.
Proof.
  induction 1 as [|[c v] [c' v'] l eps [Hc Hv] _ IH]; intros acc; simpl;
    [reflexivity|].
  simpl in Hc, Hv. subst v'. rewrite IH, find_snoc.
  destruct (List.find _ (rev l)); [reflexivity|].
  rewrite dict_get_set. simpl. rewrite Hc.
  destruct (decide (c' = k)) as [->|N].
  - now rewrite bool_decide_eq_true_2.
  - rewrite bool_decide_eq_false_2; [reflexivity | congruence].
Qed.

(** X6.  The values of a split row.  A property column keeps its value
    in [props], and [props] has nothing else.  Under a label [edges] has
    the value of the last edge column, in the order of [fields], that
    has this label: when two columns share a label the value of the
    earlier one is dropped. *)
Theorem split_node_edge_values (row row' : Series) (d : dict) :
  row !! "fields" = Some (PDict d) ->
  NoDup (keys d) ->
  _split_node_edge row = Ok row' ->
  exists props edges : dict,
    row' !! "props" = Some (PDict props)
    /\ row' !! "edges" = Some (PDict edges)
    /\ (forall k, dict_get props k
                  = if prop_col_cond k
                    then if keep_col_cond k then dict_get d k else None
                    else None)
    /\ (forall l, dict_get edges l
                  = snd <$> List.find
                              (fun kv =>
                                 keep_col_cond (fst kv)
                                 && (edge_col_cond (fst kv)
                                     && bool_decide
                                          (format_edge_col (fst kv) = Ok l)))
                              (rev d)).
Proof.
  intros Hf Hd H.
  destruct (split_node_edge_inv row row' H) as (d' & c & Hf' & Hc).
  rewrite Hf in Hf'. injection Hf' as <-.
  destruct (split_node_edge_ok row d c Hf Hc) as (eps & Heps & Hs).
  set (kept := List.filter (fun kv => keep_col_cond (fst kv)) d) in *.
  assert (Hkept : NoDup (keys kept)) by now apply filter_keys_NoDup.
  rewrite (dict_of_pairs_NoDup kept Hkept) in Heps, Hs.
  rewrite (dict_of_pairs_NoDup (List.filter _ kept)) in Hs
    by now apply filter_keys_NoDup.
  destruct (edge_pairs_ok kept) as (eps' & Heps' & HF).
  rewrite Heps in Heps'. injection Heps' as <-.
  rewrite Hs in H. injection H as <-.
  eexists _, _. split; [|split; [|split]].
  - destruct (truthy c); [rewrite lookup_delete_ne by done|];
      rewrite lookup_delete_ne by done; now rewrite lookup_insert_eq.
  - destruct (truthy c); [rewrite lookup_delete_ne by done|];
      rewrite lookup_delete_ne by done; rewrite lookup_insert_ne by done;
      now rewrite lookup_insert_eq.
  - intros k. unfold kept. now rewrite !dict_get_filter.
  - intros l. unfold dict_of_pairs. rewrite (edges_get_last _ _ l HF []).
    unfold kept. rewrite <- !filter_rev, !find_filter.
    now destruct (List.find _ (rev d)).
Qed.

(** X6, at a record with the columns [KNOWS__A] and [KNOWS__B]. *)
Lemma split_node_edge_values_witness :
  exists props edges : dict,
    Fixture.twins_split !! "props" = Some (PDict props)
    /\ Fixture.twins_split !! "edges" = Some (PDict edges)
    /\ (forall k, dict_get props k
                  = if prop_col_cond k
                    then if keep_col_cond k
                         then dict_get Fixture.twins_fields k else None
                    else None)
    /\ (forall l, dict_get edges l
                  = snd <$> List.find
                              (fun kv =>
                                 keep_col_cond (fst kv)
                                 && (edge_col_cond (fst kv)
                                     && bool_decide
                                          (format_edge_col (fst kv) = Ok l)))
                              (rev Fixture.twins_fields)).
Proof.
  apply (split_node_edge_values Fixture.twins Fixture.twins_split
           Fixture.twins_fields).
  - vm_compute. reflexivity.
  - apply (bool_decide_unpack _). vm_compute. exact I.
  - vm_compute. reflexivity.
Defined.

(** ** Building a node *)

(** X8.  On a row with a [props] dictionary and an [id],
    [make_node_list] returns the dictionary with the identifier under
    [_aid]: every other key reads as in [props], an [_aid] that [props]
    already has is overwritten where it stands, and otherwise the key
    goes to the end. *)
Theorem make_node_list_sets_identifier (row : Series) (props : dict) (id : pyval) :
  row !! "props" = Some (PDict props) ->
  row !! "id" = Some id ->
  exists node : dict,
    make_node_list row = Ok (PDict node)
    /\ dict_get node (PStr airtable_id_col) = Some id
    /\ (forall k, k <> PStr airtable_id_col -> dict_get node k = dict_get props k)
    /\ keys node
       = if decide (PStr airtable_id_col ∈ keys props)
         then keys props
         else keys props ++ [PStr airtable_id_col].
Proof.
  intros Hp Hid. exists (dict_set props (PStr airtable_id_col) id).
  split; [|split; [|split]].
  - unfold make_node_list, getitem. now rewrite Hp, Hid.
  - apply dict_get_set_eq.
  - intros k Hk. rewrite dict_get_set. now rewrite decide_False by congruence.
  - destruct (decide (PStr airtable_id_col ∈ keys props)) as [H|H].
    + now apply keys_dict_set_in.
    + rewrite dict_set_fresh by exact H. unfold keys. now rewrite map_app.
Qed.

(** X8, at the sample record once split. *)
Lemma make_node_list_sets_identifier_witness :
  exists node : dict,
    make_node_list Fixture.ada_split = Ok (PDict node)
    /\ dict_get node (PStr airtable_id_col) = Some (PStr "rec00000000000001")
    /\ (forall k, k <> PStr airtable_id_col ->
                  dict_get node k = dict_get [(PStr "Name", PStr "Ada")] k)
    /\ keys node
       = if decide (PStr airtable_id_col ∈ keys [(PStr "Name", PStr "Ada")])
         then keys [(PStr "Name", PStr "Ada")]
         else keys [(PStr "Name", PStr "Ada")] ++ [PStr airtable_id_col].
Proof.
  apply (make_node_list_sets_identifier Fixture.ada_split
           [(PStr "Name", PStr "Ada")] (PStr "rec00000000000001"));
    vm_compute; reflexivity.
Defined.

(** X9.  The edge list of a table is built row by row: for two runs of
    rows whose edge lists can be built, the edge list of the rows put
    together is the first list followed by the second, so the edges of
    a row stand together and rows keep their order. *)
Theorem table_edges_row_by_row (df1 df2 : DataFrame) (el1 el2 : list pyval) :
  table_edges df1 = Ok el1 ->
  table_edges df2 = Ok el2 ->
  table_edges (df1 ++ df2) = Ok (el1 ++ el2).
Proof.
  unfold table_edges.
  destruct (mapM row_edges df1) as [p1|e1] eqn:E1; simpl; [|discriminate].
  destruct (mapM row_edges df2) as [p2|e2] eqn:E2; simpl; [|discriminate].
  intros [= <-] [= <-]. rewrite (mapM_app _ _ _ _ _ E1 E2). simpl.
  now rewrite concat_app.
Qed.

(** X9, at two split records. *)
Lemma table_edges_row_by_row_witness :
  table_edges ([Fixture.ada_split] ++ [Fixture.twins_split])
  = Ok (Sample.people_edge_list
          ++ [make_edge (PStr "rec00000000000001") (PStr "rec00000000000003")
                (PStr "KNOWS")]).
Proof.
  apply (table_edges_row_by_row [Fixture.ada_split] [Fixture.twins_split]);
    vm_compute; reflexivity.
Defined.

(** ** The job, phase by phase *)

Lemma mapM_raise_elem {A B} (f : A -> result B) (l : list A) (x : A) (e : exn) :
  x ∈ l -> f x = Raise e -> exists e', mapM f l = Raise e'.
Proof.
  induction l as [|y l IH]; [now intros ?%elem_of_nil|].
  intros [->|Hx]%elem_of_cons Hf; simpl.
  - rewrite Hf. eauto.
  - destruct (f y); [|eauto]. destruct (IH Hx Hf) as (e' & ->). eauto.
Qed.

Lemma node_loop_ok_shape (dfs : list (string * DataFrame)) (tn : list event)
    (u : unit) :
  for_each dfs create_nodes = (tn, Ok u) ->
  List.map fst (node_batches tn) = List.map fst dfs
  /\ constraint_decls tn = List.map (fun t => (fst t, airtable_id_col)) dfs
  /\ edge_batches tn = [].
Proof.
  revert tn. induction dfs as [|[table df] dfs IH]; intros tn; cbn [for_each].
  - now intros [= <-].
  - rewrite create_nodes_unfold.
    destruct (node_list_of df) as [nl|e]; simpl; [|discriminate].
    destruct (for_each dfs create_nodes) as [t' r'] eqn:E'.
    intros [= <- ->]. destruct (IH t' eq_refl) as (H1 & H2 & H3).
    simpl. now rewrite H1, H2, H3.
Qed.

Lemma node_loop_fail (dfs1 dfs2 : list (string * DataFrame)) (table : string)
    (df : DataFrame) (e : exn) :
  Forall (fun tdf => exists nl, node_list_of (snd tdf) = Ok nl) dfs1 ->
  node_list_of df = Raise e ->
  exists tn,
    for_each (dfs1 ++ (table, df) :: dfs2) create_nodes = (tn, Raise e)
    /\ List.map fst (node_batches tn) = List.map fst dfs1
    /\ constraint_decls tn = List.map (fun t => (fst t, airtable_id_col)) dfs1
    /\ edge_batches tn = [].
Proof.
  intros Hok Hdf. induction Hok as [|[t0 df0] dfs1 (nl & Hnl) _ IH];
    cbn [for_each app].
  - rewrite create_nodes_unfold, Hdf. simpl. now exists [].
  - destruct IH as (tn & Htn & H1 & H2 & H3).
    rewrite create_nodes_unfold. simpl in Hnl. rewrite Hnl. simpl.
    rewrite Htn. eexists. split; [reflexivity|].
    simpl. now rewrite H1, H2, H3.
Qed.

Lemma node_loop_whole (dfs : list (string * DataFrame)) (tn : list event)
    (r : result unit) :
  for_each dfs create_nodes = (tn, r) ->
  forall t2, whole_transactions (tn ++ t2) = whole_transactions t2.
Proof.
  revert tn r. induction dfs as [|[table df] dfs IH]; intros tn r;
    cbn [for_each].
  - now intros [= <- <-].
  - rewrite create_nodes_unfold.
    destruct (node_list_of df) as [nl|e]; simpl.
    + destruct (for_each dfs create_nodes) as [t' r'] eqn:E'.
      intros [= <- <-] t2. simpl. apply (IH t' r' eq_refl).
    + now intros [= <- <-].
Qed.

Lemma edge_loop_whole (dfs : list (string * DataFrame)) (te : list event)
    (r : result unit) :
  for_each dfs create_edges = (te, r) ->
  forall t2, whole_transactions (te ++ t2) = whole_transactions t2.
Proof.
  revert te r. induction dfs as [|[table df] dfs IH]; intros te r;
    cbn [for_each].
  - now intros [= <- <-].
  - rewrite create_edges_unfold.
    destruct (table_edges df) as [el|e]; simpl.
    + destruct (for_each dfs create_edges) as [t' r'] eqn:E'.
      intros [= <- <-] t2. simpl. apply (IH t' r' eq_refl).
    + now intros [= <- <-].
Qed.

Lemma edge_loop_ok_shape (dfs : list (string * DataFrame)) (te : list event)
    (u : unit) :
  for_each dfs create_edges = (te, Ok u) ->
  length (edge_batches te) = length dfs
  /\ node_batches te = []
  /\ constraint_decls te = [].
Proof.
  revert te. induction dfs as [|[table df] dfs IH]; intros te; cbn [for_each].
  - now intros [= <-].
  - rewrite create_edges_unfold.
    destruct (table_edges df) as [el|e]; simpl; [|discriminate].
    destruct (for_each dfs create_edges) as [t' r'] eqn:E'.
    intros [= <- ->]. destruct (IH t' eq_refl) as (H1 & H2 & H3).
    simpl. now rewrite H1, H2, H3.
Qed.

Lemma edge_loop_batches (dfs : list (string * DataFrame)) (te : list event)
    (r : result unit) (el : list pyval) :
  for_each dfs create_edges = (te, r) ->
  BatchCreateEdge el ∈ te ->
  exists table df, (table, df) ∈ dfs /\ table_edges df = Ok el.
Proof.
  revert te r. induction dfs as [|[table df] dfs IH]; intros te r;
    cbn [for_each].
  - intros [= <- <-]. now intros ?%elem_of_nil.
  - rewrite create_edges_unfold.
    destruct (table_edges df) as [el0|e] eqn:E; simpl.
    + destruct (for_each dfs create_edges) as [t' r'] eqn:E'.
      intros [= <- <-] He.
      apply elem_of_cons in He as [?|He]; [discriminate|].
      apply elem_of_cons in He as [[= ->]|He].
      { exists table, df. split; [now left | exact E]. }
      repeat (apply elem_of_cons in He as [?|He]; [discriminate|]).
      destruct (IH t' r' eq_refl He) as (t0 & df0 & Hin & H0).
      exists t0, df0. split; [now right | exact H0].
    + intros [= <- <-]. now intros ?%elem_of_nil.
Qed.

Lemma flat_map_app_list {A B} (f : A -> list B) (l1 l2 : list A) :
  flat_map f (l1 ++ l2) = flat_map f l1 ++ flat_map f l2.
Proof.
  induction l1 as [|x l1 IH]; simpl; [reflexivity|].
  now rewrite IH, app_assoc.
Qed.

(** X10.  A row that cannot be split, in any table, keeps the whole job
    from the store: nothing is sent, not even the wipe that [nuke] asks
    for, and the job ends with an exception. *)
Theorem failed_transform_sends_nothing
    (nuke : bool) (src : source) (table : string) (rows : DataFrame)
    (row : Series) (e : exn) :
  (table, rows) ∈ src ->
  row ∈ rows ->
  _split_node_edge row = Raise e ->
  exists e', run_airtable_to_neo4j_ingest_job nuke src = ([], Raise e').
Proof.
  intros Hsrc Hrow He. rewrite run_unfold.
  assert (Hd : exists e1, _download_airtable_and_return_as_df (table, rows)
                          = Raise e1).
  { unfold _download_airtable_and_return_as_df, apply_rows.
    destruct rows as [|r0 rows]; [now apply elem_of_nil in Hrow|].
    destruct (mapM_raise_elem _split_node_edge (r0 :: rows) row e Hrow He)
      as (e1 & ->). eauto. }
  destruct Hd as (e1 & Hd).
  destruct (mapM_raise_elem _ src (table, rows) e1 Hsrc Hd) as (e' & ->).
  eauto.
Qed.

(** X10, at a source whose second table has a record without [fields],
    with [nuke] set. *)
Lemma failed_transform_sends_nothing_witness :
  exists e',
    run_airtable_to_neo4j_ingest_job true
      [("People", [Sample.ada]); ("Broken", [Fixture.bare])]
    = ([], Raise e').
Proof.
  apply (failed_transform_sends_nothing true
           [("People", [Sample.ada]); ("Broken", [Fixture.bare])]
           "Broken" [Fixture.bare] Fixture.bare (KeyError "fields")).
  - right. left.
  - left.
  - vm_compute. reflexivity.
Defined.

(** X11.  [nuke] changes one thing: when the transform step went
    through, the run with [nuke] is the run without it behind one wipe,
    with the same outcome; when it did not, both runs send nothing and
    end with the same exception. *)
Theorem nuke_only_adds_the_wipe (src : source) :
  run_airtable_to_neo4j_ingest_job true src
  = (Wipe :: fst (run_airtable_to_neo4j_ingest_job false src),
     snd (run_airtable_to_neo4j_ingest_job false src))
  \/ exists e,
       run_airtable_to_neo4j_ingest_job true src = ([], Raise e)
       /\ run_airtable_to_neo4j_ingest_job false src = ([], Raise e)
       /\ mapM _download_airtable_and_return_as_df src = Raise e.
Proof.
  rewrite !run_unfold.
  destruct (mapM _ src) as [dfs|e]; [left | right; eauto].
  simpl. destruct (for_each dfs create_nodes) as [tn [u|e]]; [|reflexivity].
  now destruct (for_each dfs create_edges) as [te r].
Qed.

(** X12.  Every write goes in a transaction of its own that is
    committed and closed before the next one opens, in runs that end
    with an exception too: the trace without [nuke] is a sequence of
    whole transactions, and with [nuke] it is empty or one wipe before
    such a sequence. *)
Theorem transactions_are_whole (src : source) :
  whole_transactions (fst (run_airtable_to_neo4j_ingest_job false src)) = true
  /\ (fst (run_airtable_to_neo4j_ingest_job true src) = []
      \/ exists t,
           fst (run_airtable_to_neo4j_ingest_job true src) = Wipe :: t
           /\ whole_transactions t = true).
Proof.
  assert (H : forall nuke,
             fst (run_airtable_to_neo4j_ingest_job nuke src) = []
             \/ exists t,
                  fst (run_airtable_to_neo4j_ingest_job nuke src)
                  = (if nuke then [Wipe] else []) ++ t
                  /\ whole_transactions t = true).
  { intros nuke. rewrite run_unfold.
    destruct (mapM _ src) as [dfs|e]; [right | now left].
    simpl. destruct (for_each dfs create_nodes) as [tn rn] eqn:En.
    pose proof (node_loop_whole dfs tn rn En) as Hn.
    destruct rn as [u|e]; simpl.
    - destruct (for_each dfs create_edges) as [te r] eqn:Ee. simpl.
      exists (tn ++ te). split; [reflexivity|].
      rewrite Hn. rewrite <- (app_nil_r te).
      now rewrite (edge_loop_whole dfs te r Ee).
    - exists tn. split; [reflexivity|].
      rewrite <- (app_nil_r tn). now rewrite Hn. }
  split.
  - destruct (H false) as [->|(t & -> & Ht)]; [reflexivity | exact Ht].
  - destruct (H true) as [E|(t & E & Ht)]; [now left | right; eauto].
Qed.

Lemma download_all_names (src : source) (dfs : list (string * DataFrame)) :
  mapM _download_airtable_and_return_as_df src = Ok dfs ->
  List.map fst dfs = List.map fst src
  /\ length dfs = length src.
Proof.
  intros H%download_all_inv.
  induction H as [|t tdf src dfs [Hn _] _ [IH1 IH2]]; simpl; [now split|].
  now rewrite Hn, IH1, IH2.
Qed.

Lemma constraints_of_names (l1 l2 : list (string * DataFrame)) :
  List.map fst l1 = List.map fst l2 ->
  List.map (fun t => (fst t, airtable_id_col)) l1
  = List.map (fun t => (fst t, airtable_id_col)) l2.
Proof.
  intros H.
  rewrite <- (map_map fst (fun n : string => (n, airtable_id_col)) l1).
  rewrite <- (map_map fst (fun n : string => (n, airtable_id_col)) l2).
  now rewrite H.
Qed.

(** X13.  A run that ends without exception has sent one node batch and
    one constraint per table, labelled with the table names in the order
    of the reference table, every constraint on [_aid], and one edge
    batch per table. *)
Theorem successful_run_batches (nuke : bool) (src : source) :
  snd (run_airtable_to_neo4j_ingest_job nuke src) = Ok tt ->
  let t := fst (run_airtable_to_neo4j_ingest_job nuke src) in
  List.map fst (node_batches t) = List.map fst src
  /\ constraint_decls t = List.map (fun x => (fst x, airtable_id_col)) src
  /\ length (edge_batches t) = length src.
Proof.
  rewrite run_unfold.
  destruct (mapM _ src) as [dfs|e] eqn:Ed; [|discriminate].
  destruct (download_all_names src dfs Ed) as [Hnames Hlen].
  simpl. destruct (for_each dfs create_nodes) as [tn [u|e]] eqn:En;
    [|discriminate].
  destruct (for_each dfs create_edges) as [te r] eqn:Ee. simpl.
  intros ->.
  destruct (node_loop_ok_shape dfs tn u En) as (N1 & N2 & N3).
  destruct (edge_loop_ok_shape dfs te tt Ee) as (E1 & E2 & E3).
  unfold node_batches, constraint_decls, edge_batches in *.
  rewrite !flat_map_app_list.
  rewrite E2, E3, N3, !app_nil_r.
  assert (W : forall A (f : event -> list A),
            f Wipe = [] -> flat_map f (if nuke then [Wipe] else []) = []).
  { intros A f Hf. destruct nuke; simpl; [now rewrite Hf | reflexivity]. }
  rewrite !W by reflexivity. simpl.
  split; [|split].
  - now rewrite N1.
  - rewrite N2. now apply constraints_of_names.
  - now rewrite E1.
Qed.

(** X13, at the sample source. *)
Lemma successful_run_batches_witness :
  let t := fst (run_airtable_to_neo4j_ingest_job false Sample.people) in
  List.map fst (node_batches t) = List.map fst Sample.people
  /\ constraint_decls t
     = List.map (fun x => (fst x, airtable_id_col)) Sample.people
  /\ length (edge_batches t) = length Sample.people.
Proof.
  apply (successful_run_batches false Sample.people).
  vm_compute. reflexivity.
Defined.

(** X14.  The node phase stops at the first table whose node list
    cannot be built: the job ends with that table's exception, the
    tables before it have their node batch and constraint in the store,
    the tables after it have nothing, and no edge batch is sent for any
    table. *)
Theorem node_phase_fails_fast
    (nuke : bool) (src : source) (dfs1 dfs2 : list (string * DataFrame))
    (table : string) (df : DataFrame) (e : exn) :
  mapM _download_airtable_and_return_as_df src
  = Ok (dfs1 ++ (table, df) :: dfs2) ->
  Forall (fun tdf => exists nl, node_list_of (snd tdf) = Ok nl) dfs1 ->
  node_list_of df = Raise e ->
  let t := fst (run_airtable_to_neo4j_ingest_job nuke src) in
  snd (run_airtable_to_neo4j_ingest_job nuke src) = Raise e
  /\ List.map fst (node_batches t) = List.map fst dfs1
  /\ constraint_decls t = List.map (fun x => (fst x, airtable_id_col)) dfs1
  /\ edge_batches t = [].
Proof.
  intros Hd Hok Hdf. rewrite run_unfold, Hd.
  destruct (node_loop_fail dfs1 dfs2 table df e Hok Hdf)
    as (tn & -> & N1 & N2 & N3).
  cbn [fst snd]. split; [reflexivity|].
  assert (HW : node_batches (Wipe :: tn) = node_batches tn
               /\ constraint_decls (Wipe :: tn) = constraint_decls tn
               /\ edge_batches (Wipe :: tn) = edge_batches tn)
    by (repeat split).
  destruct HW as (W1 & W2 & W3).
  destruct nuke; cbn [app]; rewrite ?W1, ?W2, ?W3, N1, N2, N3; auto.
Qed.

(** X14, at a source whose second table has no record. *)
Lemma node_phase_fails_fast_witness :
  let t := fst (run_airtable_to_neo4j_ingest_job false
                  [("People", [Sample.ada]); ("Empty", [])]) in
  snd (run_airtable_to_neo4j_ingest_job false
         [("People", [Sample.ada]); ("Empty", [])])
  = Raise (AttributeError "to_list")
  /\ List.map fst (node_batches t)
     = List.map fst [("People", [Fixture.ada_split])]
  /\ constraint_decls t
     = List.map (fun x => (fst x, airtable_id_col))
         [("People", [Fixture.ada_split])]
  /\ edge_batches t = [].
Proof.
  apply (node_phase_fails_fast false
           [("People", [Sample.ada]); ("Empty", [])]
           [("People", [Fixture.ada_split])] [] "Empty" []
           (AttributeError "to_list")).
  - vm_compute. reflexivity.
  - constructor; [|constructor]. eexists. vm_compute. reflexivity.
  - reflexivity.
Defined.

(** ** Where an edge comes from *)

Lemma dict_set_items (d : dict) (k v : pyval) (x : pyval * pyval) :
  x ∈ dict_set d k v -> x ∈ d \/ x = (k, v).
Proof.
  induction d as [|[k0 v0] d IH]; simpl.
  - intros ->%list_elem_of_singleton. now right.
  - destruct (decide (k0 = k)) as [->|N].
    + intros [->|H]%elem_of_cons; [now right | left; now right].
    + intros [->|H]%elem_of_cons; [left; now left|].
      destruct (IH H) as [H'|H']; [left; now right | now right].
Qed.

Lemma dict_of_pairs_items (kvs : list (pyval * pyval)) (x : pyval * pyval) :
  x ∈ dict_of_pairs kvs -> x ∈ kvs.
Proof.
  unfold dict_of_pairs.
  assert (H : forall acc,
             x ∈ fold_left (fun d kv => dict_set d (fst kv) (snd kv)) kvs acc ->
             x ∈ acc \/ x ∈ kvs).
  { induction kvs as [|[k v] kvs IH]; intros acc; simpl; [now left|].
    intros [H|H]%IH; [|right; now right].
    apply dict_set_items in H as [H| ->]; [now left | right; now left]. }
  intros [H0|H0]%H; [now apply elem_of_nil in H0 | exact H0].
Qed.

Lemma filter_items {A} (f : A -> bool) (l : list A) (x : A) :
  x ∈ List.filter f l -> x ∈ l /\ f x = true.
Proof. intros H%list_elem_of_In%filter_In. now rewrite list_elem_of_In. Qed.

(** Every item of [edges] is the value of an edge column under the
    column's label. *)
Lemma split_edges_items (row row' : Series) (d edges : dict) (k v : pyval) :
  _split_node_edge row = Ok row' ->
  row !! "fields" = Some (PDict d) ->
  row' !! "edges" = Some (PDict edges) ->
  (k, v) ∈ edges ->
  exists col, (col, v) ∈ d /\ classify col = Edge /\ format_edge_col col = Ok k.
Proof.
  intros H Hf He Hin.
  destruct (split_node_edge_inv row row' H) as (d' & c & Hf' & Hc).
  rewrite Hf in Hf'. injection Hf' as <-.
  destruct (split_node_edge_ok row d c Hf Hc) as (eps & Heps & Hs).
  rewrite Hs in H. injection H as <-.
  assert (He' : Some (PDict (dict_of_pairs eps)) = Some (PDict edges)).
  { rewrite <- He. symmetry.
    destruct (truthy c); [rewrite lookup_delete_ne by done|];
      rewrite lookup_delete_ne by done; rewrite lookup_insert_ne by done;
      apply lookup_insert_eq. }
  injection He' as <-. apply dict_of_pairs_items in Hin.
  destruct (edge_pairs_ok
              (dict_of_pairs (List.filter (fun kv => keep_col_cond (fst kv)) d)))
    as (eps' & Heps' & HF).
  rewrite Heps in Heps'. injection Heps' as <-.
  destruct (Forall2_elem_of_right _ _ _ _ HF Hin) as ([col v'] & Hcol & Hl & Hv).
  simpl in Hl, Hv. subst v'.
  apply filter_items in Hcol as [Hcol Hedge].
  apply dict_of_pairs_items, filter_items in Hcol as [Hcol Hkeep].
  exists col. split; [exact Hcol|]. split; [|exact Hl].
  now apply classify_Edge.
Qed.

Lemma row_edges_inv (row : Series) (es : list pyval) (e : pyval) :
  row_edges row = Ok es ->
  e ∈ es ->
  exists id edges k v vs v_,
    row !! "id" = Some id
    /\ row !! "edges" = Some (PDict edges)
    /\ (k, v) ∈ edges
    /\ iter v = Ok vs
    /\ v_ ∈ vs
    /\ e = make_edge id v_ k.
Proof.
  unfold row_edges, getitem.
  destruct (row !! "id") as [id|]; simpl; [|discriminate].
  destruct (row !! "edges") as [[| | | | |edges|]|]; simpl; try discriminate.
  destruct (mapM (label_edges id) edges) as [per|err] eqn:E; simpl;
    [|discriminate].
  intros [= <-] Hin. apply mapM_Ok_inv in E.
  apply list_elem_of_In, in_concat in Hin as (es & Hes & Hin).
  apply list_elem_of_In in Hes, Hin.
  destruct (Forall2_elem_of_right _ _ _ _ E Hes) as ([k v] & Hkv & Hl).
  unfold label_edges in Hl.
  destruct (iter v) as [vs|err] eqn:Ev; simpl in Hl; [|discriminate].
  injection Hl as <-.
  apply list_elem_of_In, in_map_iff in Hin as (v_ & <- & Hv).
  apply list_elem_of_In in Hv.
  exists id, edges, k, v, vs, v_. auto 10.
Qed.

(** X15.  Every edge of every edge batch the job sends comes from one
    cell of the source: its source is the [id] of a record of one of the
    tables, its label is the formatted name of an edge column of that
    record, and its target is one of the values that iterating the
    column's value yields. *)
Theorem edge_comes_from_a_cell
    (nuke : bool) (src : source) (el : list pyval) (e : pyval) :
  BatchCreateEdge el ∈ fst (run_airtable_to_neo4j_ingest_job nuke src) ->
  e ∈ el ->
  exists table rows row id d col v vs v_ k,
    (table, rows) ∈ src
    /\ row ∈ rows
    /\ row !! "id" = Some id
    /\ row !! "fields" = Some (PDict d)
    /\ (col, v) ∈ d
    /\ classify col = Edge
    /\ format_edge_col col = Ok k
    /\ iter v = Ok vs
    /\ v_ ∈ vs
    /\ e = make_edge id v_ k.
Proof.
  rewrite run_unfold.
  destruct (mapM _ src) as [dfs|e0] eqn:Ed; simpl; [|now intros ?%elem_of_nil].
  destruct (for_each dfs create_nodes) as [tn rn] eqn:En.
  destruct (node_loop_trace dfs tn rn En) as (H1 & _ & _).
  assert (Hbatch : BatchCreateEdge el
                     ∈ fst (match rn with
                            | Ok _ =>
                                let '(te, r) := for_each dfs create_edges in
                                ((if nuke then [Wipe] else []) ++ tn ++ te, r)
                            | Raise e1 =>
                                ((if nuke then [Wipe] else []) ++ tn, Raise e1)
                            end) ->
                   exists table df, (table, df) ∈ dfs /\ table_edges df = Ok el).
  { assert (Hw : BatchCreateEdge el ∉ (if nuke then [Wipe] else [])).
    { destruct nuke; [|apply not_elem_of_nil].
      intros ?%list_elem_of_singleton. discriminate. }
    assert (Hn : BatchCreateEdge el ∉ tn).
    { intros Hin. destruct (H1 _ Hin) as [_ N]. now apply (N el). }
    destruct rn as [u|e1]; simpl.
    - destruct (for_each dfs create_edges) as [te r] eqn:Ee. simpl.
      rewrite !elem_of_app. intros [?|[?|Hte]]; [tauto | tauto |].
      exact (edge_loop_batches dfs te r el Ee Hte).
    - rewrite elem_of_app. tauto. }
  intros Hin He. destruct (Hbatch Hin) as (table & df & Hdf & Hel).
  destruct (Forall2_elem_of_right _ _ _ _ (download_all_inv src dfs Ed) Hdf)
    as ([table' rows] & Hrows & Ht & Happ). simpl in Ht, Happ. subst table'.
  apply apply_rows_mapM, mapM_Ok_inv in Happ.
  unfold table_edges in Hel.
  destruct (mapM row_edges df) as [per|err] eqn:Er; simpl in Hel; [|discriminate].
  injection Hel as <-. apply mapM_Ok_inv in Er.
  apply list_elem_of_In, in_concat in He as (es & Hes & He).
  apply list_elem_of_In in Hes, He.
  destruct (Forall2_elem_of_right _ _ _ _ Er Hes) as (row' & Hrow' & Hre).
  destruct (Forall2_elem_of_right _ _ _ _ Happ Hrow') as (row & Hrow & Hs).
  destruct (row_edges_inv row' es e Hre He)
    as (id & edges & k & v & vs & v_ & Hid & Hedges & Hkv & Hit & Hv & ->).
  destruct (split_node_edge_cells row row' Hs)
    as (Hid' & _ & _ & (d & _ & Hf & _)).
  destruct (split_edges_items row row' d edges k v Hs Hf Hedges Hkv)
    as (col & Hcol & Hc & Hl).
  exists table, rows, row, id, d, col, v, vs, v_, k.
  rewrite <- Hid'. auto 12.
Qed.

(** X15, at the sample source. *)
Lemma edge_comes_from_a_cell_witness :
  exists table rows row id d col v vs v_ k,
    (table, rows) ∈ Sample.people
    /\ row ∈ rows
    /\ row !! "id" = Some id
    /\ row !! "fields" = Some (PDict d)
    /\ (col, v) ∈ d
    /\ classify col = Edge
    /\ format_edge_col col = Ok k
    /\ iter v = Ok vs
    /\ v_ ∈ vs
    /\ make_edge (PStr "rec00000000000001") (PStr "rec00000000000002")
         (PStr "FRIENDS")
       = make_edge id v_ k.
Proof.
  apply (edge_comes_from_a_cell false Sample.people Sample.people_edge_list).
  - vm_compute. do 9 right. left.
  - vm_compute. left.
Defined.

(** X16.  One edge value that cannot be iterated costs its table the
    whole edge batch: the edge list is dropped with the edges of the
    other rows, nothing is sent for the table, and the exception ends
    the edge phase. *)
Theorem non_iterable_value_drops_edge_batch
    (table : string) (df : DataFrame) (row : Series) (id : pyval)
    (edges : dict) (k v : pyval) (e : exn) :
  row ∈ df ->
  row !! "id" = Some id ->
  row !! "edges" = Some (PDict edges) ->
  (k, v) ∈ edges ->
  iter v = Raise e ->
  (exists e1, row_edges row = Raise e1)
  /\ (exists e2, table_edges df = Raise e2)
  /\ exists e3, create_edges (table, df) = ([], Raise e3).
Proof.
  intros Hrow Hid He Hkv Hit.
  assert (H1 : exists e1, row_edges row = Raise e1).
  { unfold row_edges, getitem. rewrite Hid, He. simpl.
    assert (Hl : label_edges id (k, v) = Raise e)
      by (unfold label_edges; now rewrite Hit).
    destruct (mapM_raise_elem (label_edges id) edges (k, v) e Hkv Hl)
      as (e1 & ->). eauto. }
  destruct H1 as (e1 & H1).
  assert (H2 : exists e2, table_edges df = Raise e2).
  { unfold table_edges.
    destruct (mapM_raise_elem row_edges df row e1 Hrow H1) as (e2 & ->). eauto. }
  destruct H2 as (e2 & H2).
  split; [eauto|]. split; [eauto|].
  rewrite create_edges_unfold, H2. eauto.
Qed.

(** X16, at a split row whose edge column holds the number 7. *)
Lemma non_iterable_value_drops_edge_batch_witness :
  (exists e1, row_edges Fixture.numbered_split = Raise e1)
  /\ (exists e2, table_edges [Fixture.ada_split; Fixture.numbered_split]
                 = Raise e2)
  /\ exists e3,
       create_edges ("People", [Fixture.ada_split; Fixture.numbered_split])
       = ([], Raise e3).
Proof.
  apply (non_iterable_value_drops_edge_batch "People"
           [Fixture.ada_split; Fixture.numbered_split] Fixture.numbered_split
           (PStr "rec00000000000001") [(PStr "FRIENDS", PInt 7)]
           (PStr "FRIENDS") (PInt 7) (TypeError "object is not iterable")).
  - right. left.
  - vm_compute. reflexivity.
  - vm_compute. reflexivity.
  - left.
  - reflexivity.
Defined.

(** ** The predicates on their own, and the transform step *)

Lemma underscore_is_caseless :
  is_lower 95 || is_title 95 = false /\ is_upper 95 = false.
Proof. split; vm_compute; reflexivity. Qed.

Lemma isupper_underscore (s : string) : isupper (String "_" s) = isupper s.
Proof.
  unfold isupper. change (decode (String "_" s)) with (95%N :: decode s).
  cbn [isupper_from]. destruct underscore_is_caseless as [-> ->].
  reflexivity.
Qed.

(** X17.  Only [keep_col_cond] looks at the underscore.  On every
    string exactly one of [edge_col_cond] and [prop_col_cond] holds, and
    neither changes when an underscore is put in front of the name: an
    ignored column still passes one of the two tests, so a caller has to
    filter with [keep_col_cond] first, as [_split_node_edge] does. *)
Theorem underscore_is_invisible_to_edge_and_prop (s : string) :
  prop_col_cond (PStr s) = negb (edge_col_cond (PStr s))
  /\ edge_col_cond (PStr (String "_" s)) = edge_col_cond (PStr s)
  /\ prop_col_cond (PStr (String "_" s)) = prop_col_cond (PStr s)
  /\ keep_col_cond (PStr (String "_" s)) = false.
Proof.
  unfold prop_col_cond, edge_col_cond.
  rewrite isupper_underscore. repeat split.
Qed.

(** X18.  The transform step of one table keeps the table's name and
    returns one row per record, in the order of the records, each the
    split of its record. *)
Theorem download_splits_row_by_row
    (name name' : string) (rows df : DataFrame) :
  _download_airtable_and_return_as_df (name, rows) = Ok (name', df) ->
  name' = name
  /\ length df = length rows
  /\ Forall2 (fun row row' => _split_node_edge row = Ok row') rows df.
Proof.
  unfold _download_airtable_and_return_as_df.
  destruct (apply_rows _split_node_edge rows) as [df0|e] eqn:E; simpl;
    [|discriminate].
  intros [= <- <-]. apply apply_rows_mapM, mapM_Ok_inv in E.
  split; [reflexivity|]. split; [|exact E].
  symmetry. exact (Forall2_length _ _ _ E).
Qed.

(** X18, at the sample table. *)
Lemma download_splits_row_by_row_witness :
  ("People" : string) = "People"
  /\ length [Fixture.ada_split] = length [Sample.ada]
  /\ Forall2 (fun row row' => _split_node_edge row = Ok row')
             [Sample.ada] [Fixture.ada_split].
Proof.
  apply (download_splits_row_by_row "People" "People" [Sample.ada]
           [Fixture.ada_split]).
  vm_compute. reflexivity.
Defined.

(** ** Records without an identifier, in a frame *)



Lemma column_of_no_record (recs : list Series) (k : string) :
  (forall r, r ∈ recs -> r !! k = None) -> k ∉ columns_of recs.
Proof.
  intros H Hk. unfold columns_of in Hk.
  apply elem_of_union_list in Hk as (X & HX & Hk).
  apply list_elem_of_fmap in HX as (r & -> & Hr).
  apply elem_of_dom in Hk as [v Hv]. rewrite (H r Hr) in Hv. discriminate.
Qed.



Example ragged_table_run :
  DataFrame_of_records Fixture.ragged_records = [Sample.ada; Fixture.nan_row]
  /\ run_airtable_to_neo4j_ingest_job false
       (frames_of [("People", Fixture.ragged_records)])
     = ([Begin;
         BatchCreateNode "People"
           [PDict [(PStr "Name", PStr "Ada");
                   (PStr "_aid", PStr "rec00000000000001")];
            PDict [(PStr "Name", PStr "Ada"); (PStr "_aid", PNaN)]];
         Commit; Close;
         Begin; CreateConstraintFor "People" "_aid"; Commit; Close;
         Begin;
         BatchCreateEdge
           [make_edge (PStr "rec00000000000001") (PStr "rec00000000000002")
              (PStr "FRIENDS");
            make_edge PNaN (PStr "rec00000000000002") (PStr "FRIENDS")];
         Commit; Close],
        Ok tt).
Proof. split; vm_compute; reflexivity. Qed.

(** X20.  When no record of a table has an [id], the frame has no such
    column, and the node list of the table raises [KeyError] for [id]
    at its first row: nothing is sent for the table. *)
Theorem table_without_ids_raises
    (name : string) (recs : list Series) (df : DataFrame) :
  recs <> [] ->
  (forall r, r ∈ recs -> r !! "id" = None) ->
  apply_rows _split_node_edge (DataFrame_of_records recs) = Ok df ->
  (forall row, row ∈ DataFrame_of_records recs -> row !! "id" = None)
  /\ node_list_of df = Raise (KeyError "id")
  /\ create_nodes (name, df) = ([], Raise (KeyError "id")).
Proof.
  intros Hne Hno Hdf.
  assert (Hrows : forall row, row ∈ DataFrame_of_records recs ->
                              row !! "id" = None).
  { intros row Hrow. unfold DataFrame_of_records in Hrow.
    apply list_elem_of_fmap in Hrow as (r & -> & Hr).
    rewrite lookup_union_r by now apply Hno.
    apply lookup_gset_to_gmap_None. now apply column_of_no_record. }
  split; [exact Hrows|].
  assert (Hnl : node_list_of df = Raise (KeyError "id")).
  { apply apply_rows_mapM, mapM_Ok_inv in Hdf.
    destruct recs as [|r recs]; [congruence|].
    unfold DataFrame_of_records in Hdf, Hrows.
    rewrite fmap_cons in Hdf, Hrows.
    apply Forall2_cons_inv_l in Hdf as (row' & df' & Hs & _ & ->).
    destruct (split_node_edge_cells _ row' Hs)
      as (Hid & _ & _ & (d & props & _ & Hp & _)).
    rewrite (Hrows (r ∪ gset_to_gmap PNaN (columns_of (r :: recs)))) in Hid
      by now left.
    unfold node_list_of, apply_values. cbn [mapM].
    assert (Hm : make_node_list row' = Raise (KeyError "id")).
    { unfold make_node_list, getitem. now rewrite Hp, Hid. }
    now rewrite Hm. }
  split; [exact Hnl|]. now rewrite create_nodes_unfold, Hnl.
Qed.

(** X20, at a table whose only record has no [id]. *)
Lemma table_without_ids_raises_witness :
  (forall row, row ∈ DataFrame_of_records [Sample.anonymous] ->
               row !! "id" = None)
  /\ node_list_of [Fixture.anonymous_split] = Raise (KeyError "id")
  /\ create_nodes ("People", [Fixture.anonymous_split])
     = ([], Raise (KeyError "id")).
Proof.
  apply (table_without_ids_raises "People" [Sample.anonymous]
           [Fixture.anonymous_split]).
  - discriminate.
  - intros r ->%list_elem_of_singleton. vm_compute. reflexivity.
  - vm_compute. reflexivity.
Defined.
